(** * cupy/_environment.py: toolkit discovery and library preloading

    A shallow embedding of [cupy/_environment.py].  The module keeps its
    results in module-level globals ([_cuda_path], [_nvcc_path],
    [_cub_path], [_preload_config], [_preload_libs], [_preload_logs]); they
    are the fields of [state].  Everything the module asks of the Python
    runtime and of the operating system (environment variables, the file
    system, [shutil.which], [json.load], [ctypes.CDLL], [warnings.warn],
    [os.path]) is a field of [World].  Every function of the module is a computation in a
    state-and-exception monad whose state survives a raised exception, as
    Python's globals do. *)

From Stdlib Require Import String Ascii List Bool Arith Lia.
Import ListNotations.
Open Scope string_scope.

(** ** Python values *)

(** What [json.load] can return.  [JNull] is Python's [None]; a number is
    kept as its literal text. *)
#[local] Unset Elimination Schemes.
Inductive json : Type :=
| JNull
| JBool (b : bool)
| JNum (literal : string)
| JStr (s : string)
| JArr (elems : list json)
| JObj (items : list (string * json)).
#[local] Set Elimination Schemes.

(** Exceptions: the two that subscripting raises, and any other exception
    instance, given by its class name and by [str(e)]. *)
Inductive exn : Type :=
| KeyError (key : string)
| TypeError
| Raised (type_name msg : string).

Definition exn_type_name (e : exn) : string :=
  match e with
  | KeyError _ => "KeyError"
  | TypeError => "TypeError"
  | Raised n _ => n
  end.

(** [str(e)]; for a [KeyError] it is the repr of the key, and the text of a
    [TypeError] raised by the interpreter is not modelled. *)
Definition exn_str (e : exn) : string :=
  match e with
  | KeyError k => "'" ++ k ++ "'"
  | TypeError => ""
  | Raised _ m => m
  end.

Inductive result (A : Type) : Type :=
| Ok (a : A)
| Raise (e : exn).
Arguments Ok {A} a.
Arguments Raise {A} e.

(** A loaded library, as [ctypes.CDLL] returns it. *)
Definition handle := nat.

(** ** The world outside the module *)

Record World : Type := {
  sys_platform : string;
  environ : string -> option string;
  module_file : string;                              (* __file__ *)
  path_join : string -> list string -> string;       (* os.path.join *)
  path_dirname : string -> string;                   (* os.path.dirname *)
  path_abspath : string -> string;                   (* os.path.abspath *)
  path_expanduser : string -> string;                (* os.path.expanduser *)
  fs_exists : string -> bool;
  fs_isdir : string -> bool;
  which : string -> option string -> option string;  (* shutil.which(cmd, path=) *)
  json_load_open : string -> result json;            (* json.load(open(p)) *)
  CDLL : json -> result handle;                      (* ctypes.CDLL(name) *)
  str_json : json -> string;                         (* str() of a non-str value *)
  warn : string -> result unit                       (* warnings.warn(msg) *)
}.

(** ** Observable effects *)

Inductive event : Type :=
| EvExists (p : string)
| EvIsdir (p : string)
| EvWhich (cmd : string) (path : option string)
| EvOpen (p : string)
| EvCDLL (name : json).

Definition is_probe (e : event) : bool :=
  match e with
  | EvCDLL _ => false
  | _ => true
  end.

Definition is_load (e : event) : bool :=
  match e with
  | EvCDLL _ => true
  | _ => false
  end.

(** ** Module globals *)

Record state : Type := mkState {
  _cuda_path : option string;     (* Some "" for uninitialized, None for non-existing *)
  _nvcc_path : option string;
  _cub_path : option string;
  _preload_config : json;
  _preload_libs : list (string * option (json * handle));
  _preload_logs : list string;
  warned : list string;           (* messages given to warnings.warn *)
  trace : list event              (* calls made to the world, oldest first *)
}.

Definition initial_state : state :=
  {| _cuda_path := Some "";
     _nvcc_path := Some "";
     _cub_path := Some "";
     _preload_config := JNull;
     _preload_libs := [("cudnn", None)];
     _preload_logs := [];
     warned := [];
     trace := [] |}.

(** The keys of [_preload_libs]: the libraries the module knows. *)
Definition known_libs (s : state) : list string := map fst (_preload_libs s).

Definition set_cuda_path (v : option string) (s : state) : state :=
  mkState v (_nvcc_path s) (_cub_path s) (_preload_config s)
          (_preload_libs s) (_preload_logs s) (warned s) (trace s).

Definition set_nvcc_path (v : option string) (s : state) : state :=
  mkState (_cuda_path s) v (_cub_path s) (_preload_config s)
          (_preload_libs s) (_preload_logs s) (warned s) (trace s).

Definition set_cub_path (v : option string) (s : state) : state :=
  mkState (_cuda_path s) (_nvcc_path s) v (_preload_config s)
          (_preload_libs s) (_preload_logs s) (warned s) (trace s).

Definition set_preload_config (v : json) (s : state) : state :=
  mkState (_cuda_path s) (_nvcc_path s) (_cub_path s) v
          (_preload_libs s) (_preload_logs s) (warned s) (trace s).

Definition set_preload_libs (v : list (string * option (json * handle)))
           (s : state) : state :=
  mkState (_cuda_path s) (_nvcc_path s) (_cub_path s) (_preload_config s)
          v (_preload_logs s) (warned s) (trace s).

Definition append_log (msg : string) (s : state) : state :=
  mkState (_cuda_path s) (_nvcc_path s) (_cub_path s) (_preload_config s)
          (_preload_libs s) (_preload_logs s ++ [msg]) (warned s) (trace s).

Definition append_warning (msg : string) (s : state) : state :=
  mkState (_cuda_path s) (_nvcc_path s) (_cub_path s) (_preload_config s)
          (_preload_libs s) (_preload_logs s) (warned s ++ [msg]) (trace s).

Definition append_event (e : event) (s : state) : state :=
  mkState (_cuda_path s) (_nvcc_path s) (_cub_path s) (_preload_config s)
          (_preload_libs s) (_preload_logs s) (warned s) (trace s ++ [e]).

(** ** The monad *)

Definition M (A : Type) : Type := state -> result A * state.

Definition ret {A} (a : A) : M A := fun s => (Ok a, s).

Definition bind {A B} (c : M A) (k : A -> M B) : M B :=
  fun s =>
    match c s with
    | (Ok a, s') => k a s'
    | (Raise e, s') => (Raise e, s')
    end.

(** [try: body  except Exception as e: handler e] *)
Definition try_except {A} (body : M A) (handler : exn -> M A) : M A :=
  fun s =>
    match body s with
    | (Ok a, s') => (Ok a, s')
    | (Raise e, s') => handler e s'
    end.

Definition gets {A} (f : state -> A) : M A := fun s => (Ok (f s), s).
Definition modify (f : state -> state) : M unit := fun s => (Ok tt, f s).
Definition lift {A} (r : result A) : M A := fun s => (r, s).

Declare Scope py_scope.
Delimit Scope py_scope with py.
Notation "x <- c ;; k" := (bind c (fun x => k))
  (at level 61, c at next level, right associativity) : py_scope.
Notation "c ;; k" := (bind c (fun _ => k))
  (at level 61, right associativity) : py_scope.
Open Scope py_scope.

Fixpoint for_each {A} (l : list A) (body : A -> M unit) : M unit :=
  match l with
  | [] => ret tt
  | x :: rest => body x ;; for_each rest body
  end.

(** ** Python helpers *)

(** [v == ''] for a value that is a [str] or [None]. *)
Definition is_empty_str (v : option string) : bool :=
  match v with
  | Some p => String.eqb p ""
  | None => false
  end.

Definition is_None (v : json) : bool :=
  match v with
  | JNull => true
  | _ => false
  end.

Fixpoint dict_get (items : list (string * json)) (k : string) : option json :=
  match items with
  | [] => None
  | (k', v) :: rest => if String.eqb k' k then Some v else dict_get rest k
  end.

(** [v[k]] for a string key [k]: only a dict can be subscripted by a
    string. *)
Definition subscript (v : json) (k : string) : result json :=
  match v with
  | JObj items =>
      match dict_get items k with
      | Some x => Ok x
      | None => Raise (KeyError k)
      end
  | _ => Raise TypeError
  end.

(** [k in v], used once [v['cuda']] has succeeded, hence on a dict. *)
Definition contains (v : json) (k : string) : result bool :=
  match v with
  | JObj items =>
      match dict_get items k with
      | Some _ => Ok true
      | None => Ok false
      end
  | _ => Raise TypeError
  end.

(** ['{}'.format(v)] *)
Definition fmt (w : World) (v : json) : string :=
  match v with
  | JStr s => s
  | _ => str_json w v
  end.

Fixpoint all_str (l : list json) : option (list string) :=
  match l with
  | [] => Some []
  | JStr s :: rest =>
      match all_str rest with
      | Some ss => Some (s :: ss)
      | None => None
      end
  | _ :: _ => None
  end.

(** [os.path.join(a, *p)] raises [TypeError] on a component that is not a
    [str]. *)
Definition os_path_join (w : World) (a : string) (p : list json) : result string :=
  match all_str p with
  | Some ss => Ok (path_join w a ss)
  | None => Raise TypeError
  end.

(** [_preload_libs[lib] = v]; the key is one of the dict's own. *)
Fixpoint dict_set {V} (d : list (string * V)) (k : string) (v : V)
  : list (string * V) :=
  match d with
  | [] => [(k, v)]
  | (k', v') :: rest =>
      if String.eqb k' k then (k, v) :: rest else (k', v') :: dict_set rest k v
  end.

Fixpoint dict_lookup {V} (d : list (string * V)) (k : string) : option V :=
  match d with
  | [] => None
  | (k', v) :: rest => if String.eqb k' k then Some v else dict_lookup rest k
  end.

(** ** Calls to the world, each leaving its event in the trace *)

(** [os.path.exists(p)]; [os.stat('')] fails, so the empty path never
    exists. *)
Definition path_exists (w : World) (p : string) : bool :=
  negb (String.eqb p "") && fs_exists w p.

Definition os_path_exists (w : World) (p : string) : M bool :=
  modify (append_event (EvExists p)) ;;
  ret (path_exists w p).

Definition os_path_isdir (w : World) (p : string) : M bool :=
  modify (append_event (EvIsdir p)) ;;
  ret (fs_isdir w p).

Definition shutil_which (w : World) (cmd : string) (path : option string)
  : M (option string) :=
  modify (append_event (EvWhich cmd path)) ;;
  ret (which w cmd path).

Definition json_load (w : World) (p : string) : M json :=
  modify (append_event (EvOpen p)) ;;
  lift (json_load_open w p).

Definition ctypes_CDLL (w : World) (name : json) : M handle :=
  modify (append_event (EvCDLL name)) ;;
  lift (CDLL w name).

(** [warnings.warn(msg)]: the message is handed over, and the warnings
    filter in force decides whether the call returns or raises the warning
    as an exception. *)
Definition warnings_warn (w : World) (msg : string) : M unit :=
  modify (append_warning msg) ;;
  lift (warn w msg).

(** ** The module *)

Definition _log (msg : string) : M unit :=
  modify (append_log msg).

Definition _get_cuda_path (w : World) : M (option string) :=
  let cuda_path :=
    match environ w "CUDA_PATH" with Some p => p | None => "" end in
  found <- os_path_exists w cuda_path ;;
  if found then ret (Some cuda_path)
  else
    nvcc_path <- shutil_which w "nvcc" None ;;
    match nvcc_path with
    | Some n => ret (Some (path_dirname w (path_dirname w n)))
    | None =>
        typical <- os_path_exists w "/usr/local/cuda" ;;
        if typical then ret (Some "/usr/local/cuda") else ret None
    end.

Definition get_cuda_path (w : World) : M (option string) :=
  cached <- gets _cuda_path ;;
  (if is_empty_str cached
   then v <- _get_cuda_path w ;; modify (set_cuda_path v)
   else ret tt) ;;
  gets _cuda_path.

Definition _get_nvcc_path (w : World) : M (option string) :=
  match environ w "NVCC" with
  | Some nvcc_path => ret (Some nvcc_path)
  | None =>
      cuda_path <- get_cuda_path w ;;
      match cuda_path with
      | None => ret None
      | Some c => shutil_which w "nvcc" (Some (path_join w c ["bin"]))
      end
  end.

Definition get_nvcc_path (w : World) : M (option string) :=
  cached <- gets _nvcc_path ;;
  (if is_empty_str cached
   then v <- _get_nvcc_path w ;; modify (set_nvcc_path v)
   else ret tt) ;;
  gets _nvcc_path.

Definition _get_cub_path (w : World) : M (option string) :=
  cuda_path <- get_cuda_path w ;;
  let current_dir := path_dirname w (path_abspath w (module_file w)) in
  bundled <- os_path_isdir w (path_join w current_dir ["core/include/cupy/cub"]) ;;
  if bundled then ret (Some "<bundle>")
  else
    match cuda_path with
    | Some c =>
        builtin <- os_path_isdir w (path_join w c ["include/cub"]) ;;
        if builtin then ret (Some "<CUDA>") else ret None
    | None => ret None
    end.

Definition get_cub_path (w : World) : M (option string) :=
  cached <- gets _cub_path ;;
  (if is_empty_str cached
   then v <- _get_cub_path w ;; modify (set_cub_path v)
   else ret tt) ;;
  gets _cub_path.

Definition get_cupy_install_path (w : World) : string :=
  path_abspath w (path_join w (path_dirname w (module_file w)) [".."]).

Definition get_cupy_cuda_lib_path (w : World) : string :=
  match environ w "CUPY_CUDA_LIB_PATH" with
  | None => path_expanduser w "~/.cupy/cuda_lib"
  | Some cupy_cuda_lib_path => path_abspath w cupy_cuda_lib_path
  end.

Definition get_preload_config (w : World) : M json :=
  cached <- gets _preload_config ;;
  if is_None cached then
    let config_path :=
      path_join w (get_cupy_install_path w) ["cupy"; "_wheel.json"] in
    present <- os_path_exists w config_path ;;
    if negb present then ret JNull
    else
      v <- json_load w config_path ;;
      modify (set_preload_config v) ;;
      gets _preload_config
  else ret cached.

Definition set_lib (lib : string) (v : json * handle) : M unit :=
  modify (fun s => set_preload_libs (dict_set (_preload_libs s) lib (Some v)) s).

(** The body of the [for lib in _preload_libs.keys()] loop. *)
Definition preload_lib (w : World) (config : json) (cupy_cuda_lib_path : string)
           (lib : string) : M unit :=
  present <- lift (contains config lib) ;;
  if negb present then _log ("Not preloading " ++ lib)
  else
    entry <- lift (subscript config lib) ;;
    version <- lift (subscript entry "version") ;;
    entry' <- lift (subscript config lib) ;;
    filename <- lift (subscript entry' "filename") ;;
    _log ("Looking for " ++ lib ++ " version " ++ fmt w version
            ++ " (" ++ fmt w filename ++ ")") ;;
    let lib64dir :=
      if String.prefix "win32" (sys_platform w) then "bin" else "lib64" in
    cuda <- lift (subscript config "cuda") ;;
    libpath <- lift (os_path_join w cupy_cuda_lib_path
                       [cuda; JStr lib; version; JStr lib64dir]) ;;
    found <- os_path_exists w libpath ;;
    if found then
      _log ("Trying to load " ++ libpath) ;;
      try_except
        (h <- ctypes_CDLL w (JStr libpath) ;;
         set_lib lib (JStr libpath, h) ;;
         _log "Loaded")
        (fun e =>
           let msg := "CuPy failed to preload library (" ++ libpath ++ "): "
                        ++ exn_type_name e ++ " (" ++ exn_str e ++ ")" in
           _log msg ;;
           warnings_warn w msg)
    else
      _log ("File " ++ libpath ++ " could not be found") ;;
      _log ("Trying to load " ++ fmt w filename) ;;
      try_except
        (h <- ctypes_CDLL w filename ;;
         set_lib lib (filename, h) ;;
         _log "Loaded")
        (fun e => _log ("Library " ++ lib ++ " could not be preloaded")).

Definition _preload_libraries (w : World) : M unit :=
  config <- get_preload_config w ;;
  if is_None config then
    _log "Skip preloading as this is not a wheel installation"
  else
    cuda_version <- lift (subscript config "cuda") ;;
    _log ("CuPy wheel package built for CUDA " ++ fmt w cuda_version) ;;
    let cupy_cuda_lib_path := get_cupy_cuda_lib_path w in
    _log ("CuPy CUDA library directory: " ++ cupy_cuda_lib_path) ;;
    libs <- gets known_libs ;;
    for_each libs (preload_lib w config cupy_cuda_lib_path).

Definition _get_preload_logs : M string :=
  gets (fun s => String.concat (String "010" EmptyString) (_preload_logs s)).

(** ** [posixpath]

    [os.path] on every platform but Windows; the worlds of the examples
    below take their [path_join] and [path_dirname] from here. *)

Module Posix.

Definition is_sep (c : ascii) : bool := Ascii.eqb c "/".

Fixpoint drop_seps (l : list ascii) : list ascii :=
  match l with
  | [] => []
  | c :: rest => if is_sep c then drop_seps rest else l
  end.

Fixpoint drop_to_sep (l : list ascii) : list ascii :=
  match l with
  | [] => []
  | c :: rest => if is_sep c then l else drop_to_sep rest
  end.

(** [s.rstrip('/')] *)
Definition rstrip_sep (l : list ascii) : list ascii :=
  rev (drop_seps (rev l)).

(** [p[:p.rfind('/') + 1]] *)
Definition upto_last_sep (l : list ascii) : list ascii :=
  rev (drop_to_sep (rev l)).

Definition dirname (p : string) : string :=
  let head := upto_last_sep (list_ascii_of_string p) in
  string_of_list_ascii
    (match head with
     | [] => head
     | _ :: _ => if forallb is_sep head then head else rstrip_sep head
     end).

Definition endswith_sep (p : string) : bool :=
  match rev (list_ascii_of_string p) with
  | c :: _ => is_sep c
  | [] => false
  end.

Definition join_step (path b : string) : string :=
  if String.prefix "/" b then b
  else if String.eqb path "" || endswith_sep path then path ++ b
  else path ++ "/" ++ b.

Definition join (a : string) (p : list string) : string :=
  fold_left join_step p a.

End Posix.

(** ** The resolution rules, as the specification words them *)

(** First matching rule wins. *)
Fixpoint first_match {A} (rules : list (option A)) : option A :=
  match rules with
  | [] => None
  | Some x :: _ => Some x
  | None :: rest => first_match rest
  end.

(** Rule 1: the environment override, accepted only if it exists on disk. *)
Definition toolkit_override (w : World) : option string :=
  match environ w "CUDA_PATH" with
  | Some p => if path_exists w p then Some p else None
  | None => None
  end.

(** Rule 2: the grandparent directory of the compiler found by the
    executable search. *)
Definition toolkit_from_compiler (w : World) : option string :=
  match which w "nvcc" None with
  | Some n => Some (path_dirname w (path_dirname w n))
  | None => None
  end.

(** Rule 3: the well-known default directory, if present. *)
Definition toolkit_default (w : World) : option string :=
  if path_exists w "/usr/local/cuda" then Some "/usr/local/cuda" else None.

Definition resolveToolkitPath_spec (w : World) : option string :=
  first_match [toolkit_override w; toolkit_from_compiler w; toolkit_default w].

(** Header rules, given the resolved toolkit path. *)
Definition header_bundled (w : World) : option string :=
  let current_dir := path_dirname w (path_abspath w (module_file w)) in
  if fs_isdir w (path_join w current_dir ["core/include/cupy/cub"])
  then Some "<bundle>" else None.

Definition header_system (w : World) (toolkit : option string) : option string :=
  match toolkit with
  | Some c =>
      if fs_isdir w (path_join w c ["include/cub"]) then Some "<CUDA>" else None
  | None => None
  end.

Definition resolveHeaderPath_spec (w : World) (toolkit : option string)
  : option string :=
  first_match [header_bundled w; header_system w toolkit].

(** Compiler rules, given the resolved toolkit path. *)
Definition resolveCompilerPath_spec (w : World) (toolkit : option string)
  : option string :=
  match environ w "NVCC" with
  | Some p => Some p
  | None =>
      match toolkit with
      | Some c => which w "nvcc" (Some (path_join w c ["bin"]))
      | None => None
      end
  end.

(** The probes a trace holds. *)
Definition probes (s : state) : list event := filter is_probe (trace s).

(** The library loads a trace holds. *)
Definition loads (s : state) : list event := filter is_load (trace s).

(** ** The manifest and what the preloader makes of it *)

(** The path of [cupy/_wheel.json]. *)
Definition config_path (w : World) : string :=
  path_join w (get_cupy_install_path w) ["cupy"; "_wheel.json"].

Definition platform_lib_dir (w : World) : string :=
  if String.prefix "win32" (sys_platform w) then "bin" else "lib64".

(** The path [_preload_libraries] builds for a library. *)
Definition libpath_of (w : World) (cuda lib version : string) : string :=
  path_join w (get_cupy_cuda_lib_path w) [cuda; lib; version; platform_lib_dir w].

(** The path the specification gives: the same directory, then the file
    name. *)
Definition qualified_path_spec (w : World) (cuda lib version filename : string)
  : string :=
  path_join w (get_cupy_cuda_lib_path w)
            [cuda; lib; version; platform_lib_dir w; filename].

Definition is_lib_spec (v : json) : bool :=
  match v with
  | JObj e =>
      match dict_get e "version", dict_get e "filename" with
      | Some (JStr _), Some (JStr _) => true
      | _, _ => false
      end
  | _ => false
  end.

(** The manifest says nothing of [lib], or gives it a version string and a
    file name string. *)
Definition entry_ok (items : list (string * json)) (lib : string) : bool :=
  match dict_get items lib with
  | Some entry => is_lib_spec entry
  | None => true
  end.

(** A manifest of the required shape, as far as the libraries [libs] go: a
    toolkit version string, and for each of [libs] that it names a version
    string and a file name string. *)
Definition well_formed (config : json) (libs : list string) : bool :=
  match config with
  | JObj items =>
      match dict_get items "cuda" with
      | Some (JStr _) => forallb (entry_ok items) libs
      | _ => false
      end
  | _ => false
  end.

(** The first required field that a manifest object lacks, for the one
    library the module knows. *)
Definition missing_field (config : json) : option string :=
  match config with
  | JObj items =>
      match dict_get items "cuda" with
      | None => Some "cuda"
      | Some _ =>
          match dict_get items "cudnn" with
          | Some (JObj e) =>
              match dict_get e "version" with
              | None => Some "version"
              | Some _ =>
                  match dict_get e "filename" with
                  | None => Some "filename"
                  | Some _ => None
                  end
              end
          | _ => None
          end
      end
  | _ => None
  end.

(** What becomes of one library of the loop. *)
Inductive outcome : Type :=
| NotConfigured
| Loaded (source : json) (h : handle)
| QualifiedFailed (libpath : string) (e : exn)
| FallbackFailed (filename : string) (e : exn).

Definition tryPreload_spec (w : World) (config : json) (lib : string) : outcome :=
  match config with
  | JObj items =>
      match dict_get items "cuda", dict_get items lib with
      | Some (JStr cuda), Some (JObj e) =>
          match dict_get e "version", dict_get e "filename" with
          | Some (JStr version), Some (JStr filename) =>
              let libpath := libpath_of w cuda lib version in
              if path_exists w libpath then
                match CDLL w (JStr libpath) with
                | Ok h => Loaded (JStr libpath) h
                | Raise e => QualifiedFailed libpath e
                end
              else
                match CDLL w (JStr filename) with
                | Ok h => Loaded (JStr filename) h
                | Raise e => FallbackFailed filename e
                end
          | _, _ => NotConfigured
          end
      | _, _ => NotConfigured
      end
  | _ => NotConfigured
  end.

Definition preload_failure_message (libpath : string) (e : exn) : string :=
  "CuPy failed to preload library (" ++ libpath ++ "): "
    ++ exn_type_name e ++ " (" ++ exn_str e ++ ")".

(** The warnings a library's outcome calls for. *)
Definition warnings_of (o : outcome) : list string :=
  match o with
  | QualifiedFailed libpath e => [preload_failure_message libpath e]
  | _ => []
  end.

(** The log line that records a failed library. *)
Definition failure_lines (lib : string) (o : outcome) : list string :=
  match o with
  | QualifiedFailed libpath e => [preload_failure_message libpath e]
  | FallbackFailed _ _ => ["Library " ++ lib ++ " could not be preloaded"]
  | _ => []
  end.

Definition failed (o : outcome) : bool :=
  match o with
  | QualifiedFailed _ _ | FallbackFailed _ _ => true
  | _ => false
  end.

(** The entry of the handle table after a library's turn. *)
Definition record_outcome (o : outcome)
           (before : option (option (json * handle)))
  : option (option (json * handle)) :=
  match o with
  | Loaded source h => Some (Some (source, h))
  | _ => before
  end.

(** The calls to the world that a library's turn makes: the existence test
    of the path built for it, then one load. *)
Definition preload_events (w : World) (config : json) (lib : string)
  : list event :=
  match config with
  | JObj items =>
      match dict_get items "cuda", dict_get items lib with
      | Some (JStr cuda), Some (JObj e) =>
          match dict_get e "version", dict_get e "filename" with
          | Some (JStr version), Some (JStr filename) =>
              let libpath := libpath_of w cuda lib version in
              [EvExists libpath;
               EvCDLL (if path_exists w libpath then JStr libpath
                       else JStr filename)]
          | _, _ => []
          end
      | _, _ => []
      end
  | _ => []
  end.

Definition str_mem (x : string) (l : list string) : bool :=
  existsb (String.eqb x) l.

(** What [warnings.warn] answers for a library's outcome: it is called
    only when the path built for the library exists and loading it
    raised. *)
Definition warning_result (w : World) (o : outcome) : result unit :=
  match o with
  | QualifiedFailed libpath e => warn w (preload_failure_message libpath e)
  | _ => Ok tt
  end.

(** The warning of [lib] is raised as an exception. *)
Definition aborts (w : World) (config : json) (lib : string) : bool :=
  match warning_result w (tryPreload_spec w config lib) with
  | Ok _ => false
  | Raise _ => true
  end.

(** No warning of [libs] is raised as an exception. *)
Definition warnings_return (w : World) (config : json) (libs : list string)
  : bool :=
  forallb (fun lib => negb (aborts w config lib)) libs.

(** The libraries of [libs] that get their turn: all of them, or those up
    to the first whose warning is raised as an exception. *)
Fixpoint attempted (w : World) (config : json) (libs : list string)
  : list string :=
  match libs with
  | [] => []
  | lib :: rest =>
      if aborts w config lib then [lib] else lib :: attempted w config rest
  end.

(** How the loop over [libs] ends: normally, or with the first warning that
    is raised as an exception. *)
Fixpoint batch_result (w : World) (config : json) (libs : list string)
  : result unit :=
  match libs with
  | [] => Ok tt
  | lib :: rest =>
      match warning_result w (tryPreload_spec w config lib) with
      | Ok _ => batch_result w config rest
      | Raise e => Raise e
      end
  end.

(** The world [w] with every warning turned into an exception, as under
    [python -W error]. *)
Definition warnings_as_errors (w : World) : World :=
  {| sys_platform := sys_platform w;
     environ := environ w;
     module_file := module_file w;
     path_join := path_join w;
     path_dirname := path_dirname w;
     path_abspath := path_abspath w;
     path_expanduser := path_expanduser w;
     fs_exists := fs_exists w;
     fs_isdir := fs_isdir w;
     which := which w;
     json_load_open := json_load_open w;
     CDLL := CDLL w;
     str_json := str_json w;
     warn := fun msg => Raise (Raised "UserWarning" msg) |}.

(** ** Concrete worlds *)

Module Linux.

Definition abspath (p : string) : string :=
  if String.eqb p "/opt/site/cupy/.." then "/opt/site" else p.

Definition expanduser (p : string) : string :=
  if String.eqb p "~/.cupy/cuda_lib" then "/home/user/.cupy/cuda_lib" else p.

Definition not_found (name : string) : exn :=
  Raised "OSError"
         (name ++ ": cannot open shared object file: No such file or directory").

(** A Linux host: environment [env], existing paths [files], directories
    [dirs], the answer [nvcc] of [shutil.which('nvcc')], the parsed
    content [manifest] of [/opt/site/cupy/_wheel.json], and the libraries
    the dynamic loader can open. *)
Definition world (env : list (string * string)) (files dirs : list string)
           (nvcc : option string) (manifest : result json)
           (loadable : list (string * handle)) : World :=
  {| sys_platform := "linux";
     environ := dict_lookup env;
     module_file := "/opt/site/cupy/_environment.py";
     path_join := Posix.join;
     path_dirname := Posix.dirname;
     path_abspath := abspath;
     path_expanduser := expanduser;
     fs_exists := fun p => str_mem p files || str_mem p dirs;
     fs_isdir := fun p => str_mem p dirs;
     which := fun cmd path =>
                match path with
                | None => if String.eqb cmd "nvcc" then nvcc else None
                | Some d =>
                    let name := Posix.join d [cmd] in
                    if str_mem name files then Some name else None
                end;
     json_load_open := fun p =>
                if String.eqb p "/opt/site/cupy/_wheel.json" then manifest
                else Raise (Raised "FileNotFoundError" p);
     CDLL := fun name =>
                match name with
                | JStr n =>
                    match dict_lookup loadable n with
                    | Some h => Ok h
                    | None => Raise (not_found n)
                    end
                | JNull => Ok 0
                | _ => Raise TypeError
                end;
     str_json := fun _ => "<object>";
     warn := fun _ => Ok tt |}.

Definition wheel_json : string := "/opt/site/cupy/_wheel.json".

Definition cudnn_manifest : json :=
  JObj [("cuda", JStr "11.0");
        ("cudnn", JObj [("version", JStr "8.0.0");
                        ("filename", JStr "libcudnn.so.8.0.0")])].

Definition cudnn_dir : string := "/home/user/.cupy/cuda_lib/11.0/cudnn/8.0.0/lib64".
Definition cudnn_file : string :=
  "/home/user/.cupy/cuda_lib/11.0/cudnn/8.0.0/lib64/libcudnn.so.8.0.0".

(** The library is installed where the docstring of
    [get_cupy_cuda_lib_path] says it is looked up. *)
Definition installed : World :=
  world [] [wheel_json; cudnn_file] [cudnn_dir] None (Ok cudnn_manifest)
        [(cudnn_file, 7)].

(** Nothing is installed and the loader finds nothing by name. *)
Definition nothing_loadable : World :=
  world [] [wheel_json] [] None (Ok cudnn_manifest) [].

(** [PATH] holds [.] and the working directory holds [nvcc]. *)
Definition nvcc_in_cwd : World :=
  world [] [] [] (Some "./nvcc") (Raise (Raised "FileNotFoundError" wheel_json)) [].

(** A manifest file that is an empty object. *)
Definition empty_manifest : World :=
  world [] [wheel_json] [] None (Ok (JObj [])) [].

(** A manifest whose library entry has no file name. *)
Definition no_filename : World :=
  world [] [wheel_json] [] None
        (Ok (JObj [("cuda", JStr "11.0");
                   ("cudnn", JObj [("version", JStr "8.0.0")])])) [].

(** No manifest: not a wheel installation. *)
Definition no_manifest : World :=
  world [] [] [] None (Raise (Raised "FileNotFoundError" wheel_json)) [].

(** A toolkit under [/usr/local/cuda], and [NVCC] set. *)
Definition nvcc_override : World :=
  world [("NVCC", "/opt/bin/my-nvcc")] ["/usr/local/cuda/bin/nvcc"]
        ["/usr/local/cuda"; "/usr/local/cuda/include/cub"]
        (Some "/usr/local/cuda/bin/nvcc")
        (Raise (Raised "FileNotFoundError" wheel_json)) [].

(** Two known libraries: the first cannot be loaded, the second is found
    by name. *)
Definition two_libs_manifest : json :=
  JObj [("cuda", JStr "11.0");
        ("cudnn", JObj [("version", JStr "8.0.0");
                        ("filename", JStr "libcudnn.so.8.0.0")]);
        ("nccl", JObj [("version", JStr "2.7.8");
                       ("filename", JStr "libnccl.so.2.7.8")])].

Definition two_libs : World :=
  world [] [wheel_json] [] None (Ok two_libs_manifest)
        [("libnccl.so.2.7.8", 9)].

Definition two_libs_state : state :=
  set_preload_libs [("cudnn", None); ("nccl", None)] initial_state.

(** The directory of the library exists but holds no loadable file. *)
Definition broken_dir : World :=
  world [] [wheel_json] [cudnn_dir] None (Ok cudnn_manifest) [].

End Linux.

(** ** Auxiliary notions for the statements *)

(** A state after further calls to the world: only the trace grows. *)
Definition add_events (evs : list event) (s : state) : state :=
  mkState (_cuda_path s) (_nvcc_path s) (_cub_path s) (_preload_config s)
          (_preload_libs s) (_preload_logs s) (warned s) (trace s ++ evs).

(** The toolkit path [get_cuda_path] answers with in state [s]: the cached
    one, or a fresh resolution when the cache is uninitialized. *)
Definition toolkit_of (w : World) (s : state) : option string :=
  if is_empty_str (_cuda_path s) then resolveToolkitPath_spec w
  else _cuda_path s.

(** The events of one toolkit resolution. *)
Definition toolkit_probes (w : World) : list event :=
  EvExists (match environ w "CUDA_PATH" with Some p => p | None => "" end)
  :: match toolkit_override w with
     | Some _ => []
     | None =>
         EvWhich "nvcc" None
         :: match which w "nvcc" None with
            | Some _ => []
            | None => [EvExists "/usr/local/cuda"]
            end
     end.

(** ** The DLL search path (Windows)

    [_setup_win32_dll_directory] reads [sys.version_info] and calls
    [os.add_dll_directory]; the first two components of the version and the
    answer of the operating system are parameters here, and the directories
    added so far are kept beside the module globals. *)

Record process : Type := mkProcess {
  py : state;
  dll_directories : list string
}.

(** [(3, 8) <= sys.version_info]: a tuple is compared component by
    component, and a strict prefix is the smaller. *)
Definition at_least_3_8 (version_info : nat * nat) : bool :=
  let (major, minor) := version_info in
  Nat.ltb 3 major || (Nat.eqb 3 major && Nat.leb 8 minor).

Definition _setup_win32_dll_directory
           (version_info : nat * nat)
           (add_dll_directory : string -> result unit)
           (w : World) (p : process) : result unit * process :=
  if String.prefix "win32" (sys_platform w) && at_least_3_8 version_info then
    match get_cuda_path w (py p) with
    | (Raise e, s1) => (Raise e, mkProcess s1 (dll_directories p))
    | (Ok None, s1) =>
        (Raise (Raised "RuntimeError" "CUDA path could not be detected."),
         mkProcess s1 (dll_directories p))
    | (Ok (Some cuda_path), s1) =>
        let cuda_bin_path := path_join w cuda_path ["bin"] in
        let s2 := append_log ("Adding DLL search path: " ++ cuda_bin_path) s1 in
        match add_dll_directory cuda_bin_path with
        | Ok _ => (Ok tt, mkProcess s2 (dll_directories p ++ [cuda_bin_path]))
        | Raise e => (Raise e, mkProcess s2 (dll_directories p))
        end
    end
  else (Ok tt, p).

(** ** Histories of calls *)

(** The functions of the module that work on its globals. *)
Inductive call : Type :=
| GetCudaPath
| GetNvccPath
| GetCubPath
| ResolveCudaPath          (* _get_cuda_path *)
| ResolveNvccPath          (* _get_nvcc_path *)
| ResolveCubPath           (* _get_cub_path *)
| GetPreloadConfig
| PreloadLibraries
| Log (msg : string)
| GetPreloadLogs.

(** The state a call leaves, whether it returns or raises. *)
Definition exec (w : World) (c : call) (s : state) : state :=
  match c with
  | GetCudaPath => snd (get_cuda_path w s)
  | GetNvccPath => snd (get_nvcc_path w s)
  | GetCubPath => snd (get_cub_path w s)
  | ResolveCudaPath => snd (_get_cuda_path w s)
  | ResolveNvccPath => snd (_get_nvcc_path w s)
  | ResolveCubPath => snd (_get_cub_path w s)
  | GetPreloadConfig => snd (get_preload_config w s)
  | PreloadLibraries => snd (_preload_libraries w s)
  | Log msg => snd (_log msg s)
  | GetPreloadLogs => snd (_get_preload_logs s)
  end.

(** Calls in a row, each in the world of its time. *)
Fixpoint run_calls (calls : list (World * call)) (s : state) : state :=
  match calls with
  | [] => s
  | (w, c) :: rest => run_calls rest (exec w c s)
  end.

(** One function called once in each of the worlds [ws]. *)
Fixpoint call_each {A} (f : World -> M A) (ws : list World) (s : state)
  : list (result A) * state :=
  match ws with
  | [] => ([], s)
  | w :: rest =>
      let (r, s1) := f w s in
      let (rs, s2) := call_each f rest s1 in
      (r :: rs, s2)
  end.

(** ** Relations between an earlier and a later state *)

Definition has_handle (s : state) (lib : string) : bool :=
  match dict_lookup (_preload_libs s) lib with
  | Some (Some _) => true
  | _ => false
  end.

(** [l'] is [l] with more at its end. *)
Definition extends {A} (l l' : list A) : Prop :=
  exists more, l' = (l ++ more)%list.

(** What no function of the module undoes: the known libraries stay the
    same, a library that has a handle keeps having one, and the log, the
    warnings and the trace only grow at their ends. *)
Definition grows (s s' : state) : Prop :=
  known_libs s' = known_libs s
  /\ (forall lib, has_handle s lib = true -> has_handle s' lib = true)
  /\ extends (_preload_logs s) (_preload_logs s')
  /\ extends (warned s) (warned s')
  /\ extends (trace s) (trace s').

(** The three path caches are as they were. *)
Definition same_caches (s s' : state) : Prop :=
  _cuda_path s' = _cuda_path s
  /\ _nvcc_path s' = _nvcc_path s
  /\ _cub_path s' = _cub_path s.

(** What the preloader owns is as it was. *)
Definition same_preload (s s' : state) : Prop :=
  _preload_config s' = _preload_config s
  /\ _preload_libs s' = _preload_libs s
  /\ _preload_logs s' = _preload_logs s
  /\ warned s' = warned s
  /\ loads s' = loads s.

(** The values the header cache can hold. *)
Definition cub_marker (v : option string) : bool :=
  match v with
  | None => true
  | Some p => String.eqb p "" || String.eqb p "<bundle>" || String.eqb p "<CUDA>"
  end.

(** A manifest that is no object: [None] apart, for which see
    [get_preload_config]. *)
Definition not_an_object (v : json) : bool :=
  match v with
  | JNull | JObj _ => false
  | _ => true
  end.

Definition is_str (v : json) : bool :=
  match v with
  | JStr _ => true
  | _ => false
  end.

(** A computation keeps [R] from [P]: run in a state where [P] holds, it
    leaves a state that [R] relates to the one it found, whether it returns
    or raises. *)
Definition keeps (P : state -> Prop) (R : state -> state -> Prop)
           {A} (c : M A) : Prop :=
  forall s, P s -> R s (snd (c s)).

(** [R] can be followed along a run that starts where [P] holds. *)
Class Invariant (P : state -> Prop) (R : state -> state -> Prop) : Prop := {
  inv_refl : forall s, R s s;
  inv_trans : forall s1 s2 s3, R s1 s2 -> R s2 s3 -> R s1 s3;
  inv_stable : forall s s', P s -> R s s' -> P s'
}.

(** The libraries [libs] are all known. *)
Definition knows (libs : list string) (s : state) : Prop :=
  incl libs (known_libs s).

Definition always (s : state) : Prop := True.

Definition skip_line : string :=
  "Skip preloading as this is not a wheel installation".

(** The manifest has an entry for [lib]. *)
Definition names (items : list (string * json)) (lib : string) : bool :=
  match dict_get items lib with
  | Some _ => true
  | None => false
  end.

(** The cached manifest is as it was. *)
Definition same_config (s s' : state) : Prop :=
  _preload_config s' = _preload_config s.

(** The header cache is as it was. *)
Definition same_cub (s s' : state) : Prop :=
  _cub_path s' = _cub_path s.

(** The three answers [get_cub_path] can give. *)
Definition is_header_answer (v : option string) : Prop :=
  v = None \/ v = Some "<bundle>" \/ v = Some "<CUDA>".

Definition runtime_error : exn :=
  Raised "RuntimeError" "CUDA path could not be detected.".

(** ** More concrete worlds *)

Module Hosts.

(** The manifest file holds [null]. *)
Definition null_manifest : World :=
  Linux.world [] [Linux.wheel_json] [] None (Ok JNull) [].

(** The manifest file is not JSON. *)
Definition decode_error : exn :=
  Raised "JSONDecodeError" "Expecting value: line 1 column 1 (char 0)".

Definition corrupt_manifest : World :=
  Linux.world [] [Linux.wheel_json] [] None (Raise decode_error) [].

(** The manifest file holds a list. *)
Definition list_manifest : World :=
  Linux.world [] [Linux.wheel_json] [] None (Ok (JArr [JStr "cuda"])) [].

(** The library version is a number. *)
Definition numeric_version_manifest : json :=
  JObj [("cuda", JStr "11.0");
        ("cudnn", JObj [("version", JNum "8");
                        ("filename", JStr "libcudnn.so.8")])].

Definition numeric_version : World :=
  Linux.world [] [Linux.wheel_json] [] None (Ok numeric_version_manifest)
              [("libcudnn.so.8", 3)].

(** The manifest names no library. *)
Definition toolkit_only : World :=
  Linux.world [] [Linux.wheel_json] [] None (Ok (JObj [("cuda", JStr "11.0")]))
              [("libcudnn.so.8.0.0", 5)].

(** The library is found by name. *)
Definition by_name : World :=
  Linux.world [] [Linux.wheel_json] [] None (Ok Linux.cudnn_manifest)
              [("libcudnn.so.8.0.0", 5)].

(** A toolkit under [/usr/local/cuda], found through [PATH]. *)
Definition with_toolkit : World :=
  Linux.world [] ["/usr/local/cuda/bin/nvcc"]
              ["/usr/local/cuda"; "/usr/local/cuda/include/cub"]
              (Some "/usr/local/cuda/bin/nvcc")
              (Raise (Raised "FileNotFoundError" Linux.wheel_json)) [].

(** No toolkit anywhere. *)
Definition bare : World :=
  Linux.world [] [] [] None
              (Raise (Raised "FileNotFoundError" Linux.wheel_json)) [].

(** A Windows host with [CUDA_PATH] set.  [join] is [ntpath.join] on the
    arguments that occur: a drive-rooted directory and relative names.  The
    other functions of [os.path] are not called where these hosts are
    used. *)
Definition join (a : string) (p : list string) : string :=
  fold_left (fun path b => path ++ "\" ++ b) p a.

Definition windows : World :=
  {| sys_platform := "win32";
     environ := dict_lookup [("CUDA_PATH", "C:\CUDA\v11.0")];
     module_file := "C:\Python38\Lib\site-packages\cupy\_environment.py";
     path_join := join;
     path_dirname := fun p => p;
     path_abspath := fun p => p;
     path_expanduser := fun p => p;
     fs_exists := fun p => String.eqb p "C:\CUDA\v11.0";
     fs_isdir := fun p => String.eqb p "C:\CUDA\v11.0";
     which := fun _ _ => None;
     json_load_open := fun p => Raise (Raised "FileNotFoundError" p);
     CDLL := fun _ => Raise (Raised "OSError" "");
     str_json := fun _ => "<object>";
     warn := fun _ => Ok tt |}.

(** Windows without a toolkit. *)
Definition windows_bare : World :=
  {| sys_platform := "win32";
     environ := fun _ => None;
     module_file := "C:\Python38\Lib\site-packages\cupy\_environment.py";
     path_join := join;
     path_dirname := fun p => p;
     path_abspath := fun p => p;
     path_expanduser := fun p => p;
     fs_exists := fun _ => false;
     fs_isdir := fun _ => false;
     which := fun _ _ => None;
     json_load_open := fun p => Raise (Raised "FileNotFoundError" p);
     CDLL := fun _ => Raise (Raised "OSError" "");
     str_json := fun _ => "<object>";
     warn := fun _ => Ok tt |}.

(** [os.add_dll_directory] that accepts every directory. *)
Definition add_ok (dir : string) : result unit := Ok tt.

Definition fresh : process := mkProcess initial_state [].

(** The directory of the library exists but holds no loadable file, and
    warnings are errors. *)
Definition strict_broken_dir : World := warnings_as_errors Linux.broken_dir.

(** Two known libraries: the directory of the first exists but cannot be
    loaded, the second is found by name. *)
Definition first_broken : World :=
  Linux.world [] [Linux.wheel_json] [Linux.cudnn_dir] None
              (Ok Linux.two_libs_manifest) [("libnccl.so.2.7.8", 9)].

Definition strict_first_broken : World := warnings_as_errors first_broken.

End Hosts.

(** * Theorems *)

Ltac run :=
  unfold bind, ret, gets, modify, lift, try_except; simpl.

Lemma add_events_nil s : add_events [] s = s.
Proof.
  destruct s; unfold add_events; simpl. rewrite app_nil_r. reflexivity.
Qed.

Lemma add_events_app evs1 evs2 s :
  add_events evs2 (add_events evs1 s) = add_events (evs1 ++ evs2) s.
Proof.
  unfold add_events; simpl. rewrite app_assoc. reflexivity.
Qed.

Lemma append_event_add e s : append_event e s = add_events [e] s.
Proof. reflexivity. Qed.

Lemma path_exists_empty w : path_exists w "" = false.
Proof. reflexivity. Qed.

Ltac events :=
  repeat rewrite append_event_add;
  repeat rewrite add_events_app;
  simpl; try reflexivity.

(** ** PathResolver *)

Lemma _get_cuda_path_run w s :
  _get_cuda_path w s
  = (Ok (resolveToolkitPath_spec w), add_events (toolkit_probes w) s).
Proof.
  unfold _get_cuda_path, os_path_exists, shutil_which, resolveToolkitPath_spec,
    toolkit_probes, toolkit_override, toolkit_from_compiler, toolkit_default.
  run.
  destruct (environ w "CUDA_PATH") as [p|].
  - destruct (path_exists w p); [reflexivity|].
    simpl. destruct (which w "nvcc" None); [events|].
    simpl. destruct (path_exists w "/usr/local/cuda"); events.
  - rewrite path_exists_empty.
    simpl. destruct (which w "nvcc" None); [events|].
    simpl. destruct (path_exists w "/usr/local/cuda"); events.
Qed.

Lemma get_cuda_path_cached w s :
  is_empty_str (_cuda_path s) = false ->
  get_cuda_path w s = (Ok (_cuda_path s), s).
Proof.
  intros H. unfold get_cuda_path. run. rewrite H. reflexivity.
Qed.

Lemma get_cuda_path_fresh w s :
  is_empty_str (_cuda_path s) = true ->
  get_cuda_path w s
  = (Ok (resolveToolkitPath_spec w),
     set_cuda_path (resolveToolkitPath_spec w) (add_events (toolkit_probes w) s)).
Proof.
  intros H. unfold get_cuda_path. run. rewrite H.
  rewrite _get_cuda_path_run. reflexivity.
Qed.

Lemma get_cuda_path_result w s :
  fst (get_cuda_path w s) = Ok (toolkit_of w s)
  /\ _cuda_path (snd (get_cuda_path w s)) = toolkit_of w s.
Proof.
  unfold toolkit_of. destruct (is_empty_str (_cuda_path s)) eqn:E.
  - rewrite get_cuda_path_fresh by assumption. split; reflexivity.
  - rewrite get_cuda_path_cached by assumption. split; reflexivity.
Qed.

(** C5.  The toolkit path is resolved by the three rules in order, the first
    that matches winning: the [CUDA_PATH] override when it names an existing
    path, else the grandparent directory of the [nvcc] that the executable
    search finds, else [/usr/local/cuda] when it exists, else [None]; no
    exception is raised.  The memoizing entry point answers with the same
    resolution when nothing is cached yet. *)
Theorem resolveToolkitPath_rules (w : World) (s : state) :
  fst (_get_cuda_path w s) = Ok (resolveToolkitPath_spec w)
  /\ fst (get_cuda_path w s)
     = Ok (if is_empty_str (_cuda_path s) then resolveToolkitPath_spec w
           else _cuda_path s).
Proof.
  split.
  - rewrite _get_cuda_path_run. reflexivity.
  - apply get_cuda_path_result.
Qed.

(** The rules of C5, one by one. *)
Lemma toolkit_override_wins w p :
  environ w "CUDA_PATH" = Some p -> path_exists w p = true ->
  resolveToolkitPath_spec w = Some p.
Proof.
  intros He Hp. unfold resolveToolkitPath_spec, toolkit_override.
  rewrite He, Hp. reflexivity.
Qed.

Lemma toolkit_override_only_if_exists w p :
  toolkit_override w = Some p ->
  environ w "CUDA_PATH" = Some p /\ p <> "" /\ fs_exists w p = true.
Proof.
  unfold toolkit_override, path_exists.
  destruct (environ w "CUDA_PATH") as [q|]; [|discriminate].
  destruct (String.eqb_spec q ""); simpl; [discriminate|].
  destruct (fs_exists w q) eqn:E; [|discriminate].
  intros H. injection H as ->. auto.
Qed.

Lemma toolkit_not_found w :
  toolkit_override w = None -> which w "nvcc" None = None ->
  path_exists w "/usr/local/cuda" = false ->
  resolveToolkitPath_spec w = None.
Proof.
  intros H1 H2 H3.
  unfold resolveToolkitPath_spec, toolkit_from_compiler, toolkit_default.
  rewrite H1, H2, H3. reflexivity.
Qed.

Lemma _get_cub_path_run w s :
  exists evs,
    _get_cub_path w s
    = (Ok (resolveHeaderPath_spec w (toolkit_of w s)),
       add_events evs (snd (get_cuda_path w s))).
Proof.
  unfold _get_cub_path, os_path_isdir, resolveHeaderPath_spec, header_bundled,
    header_system.
  pose proof (get_cuda_path_result w s) as [Hr _].
  destruct (get_cuda_path w s) as [r s1] eqn:E. simpl in Hr. subst r.
  run. rewrite E. simpl.
  destruct (fs_isdir w _).
  - eexists [_]. reflexivity.
  - destruct (toolkit_of w s) as [c|]; simpl.
    + destruct (fs_isdir w _); eexists [_; _]; events.
    + eexists [_]. reflexivity.
Qed.


Lemma _get_nvcc_path_override w s p :
  environ w "NVCC" = Some p -> _get_nvcc_path w s = (Ok (Some p), s).
Proof.
  intros H. unfold _get_nvcc_path. rewrite H. reflexivity.
Qed.

Lemma _get_nvcc_path_search w s :
  environ w "NVCC" = None ->
  _get_nvcc_path w s
  = (Ok (resolveCompilerPath_spec w (toolkit_of w s)),
     add_events match toolkit_of w s with
                | Some c => [EvWhich "nvcc" (Some (path_join w c ["bin"]))]
                | None => []
                end (snd (get_cuda_path w s))).
Proof.
  intros H. unfold _get_nvcc_path, resolveCompilerPath_spec, shutil_which.
  rewrite H.
  pose proof (get_cuda_path_result w s) as [Hr _].
  destruct (get_cuda_path w s) as [r s1] eqn:E. simpl in Hr. subst r.
  run. rewrite E. simpl.
  destruct (toolkit_of w s) as [c|]; simpl.
  - reflexivity.
  - rewrite add_events_nil. reflexivity.
Qed.


(** C10.  With [NVCC] set, resolving the compiler path leaves the state as
    it was: the toolkit cache keeps its value, uninitialized included, and
    the trace gains no event; the override is the answer unless an earlier
    answer is cached. *)
Theorem nvcc_override_frame (w : World) (s : state) (p : string) :
  environ w "NVCC" = Some p ->
  _get_nvcc_path w s = (Ok (Some p), s)
  /\ fst (get_nvcc_path w s)
     = Ok (if is_empty_str (_nvcc_path s) then Some p else _nvcc_path s)
  /\ _cuda_path (snd (get_nvcc_path w s)) = _cuda_path s
  /\ trace (snd (get_nvcc_path w s)) = trace s.
Proof.
  intros H. split; [apply _get_nvcc_path_override; assumption|].
  unfold get_nvcc_path. run.
  destruct (is_empty_str (_nvcc_path s)).
  - rewrite (_get_nvcc_path_override w s p H). simpl. auto.
  - simpl. auto.
Qed.

Lemma nvcc_override_frame_witness :
  environ Linux.nvcc_override "NVCC" = Some "/opt/bin/my-nvcc"
  /\ _get_nvcc_path Linux.nvcc_override initial_state
     = (Ok (Some "/opt/bin/my-nvcc"), initial_state)
  /\ fst (get_nvcc_path Linux.nvcc_override initial_state)
     = Ok (Some "/opt/bin/my-nvcc")
  /\ _cuda_path (snd (get_nvcc_path Linux.nvcc_override initial_state))
     = Some ""
  /\ trace (snd (get_nvcc_path Linux.nvcc_override initial_state)) = [].
Proof.
  split; [reflexivity|].
  apply (nvcc_override_frame Linux.nvcc_override initial_state).
  reflexivity.
Defined.

(** ** Memoization *)

Lemma is_empty_str_false v : v <> Some "" -> is_empty_str v = false.
Proof.
  destruct v as [p|]; simpl; [|reflexivity].
  intros H. destruct (String.eqb_spec p ""); [subst; congruence|reflexivity].
Qed.

(** A toolkit path other than the empty string is computed once: later
    calls, in whatever world, answer from the cache and leave the state
    alone. *)
Lemma get_cuda_path_memoized w w' s :
  fst (get_cuda_path w s) <> Ok (Some "") ->
  get_cuda_path w' (snd (get_cuda_path w s)) = get_cuda_path w s.
Proof.
  intros H. pose proof (get_cuda_path_result w s) as [Hr Hc].
  destruct (get_cuda_path w s) as [r s1]. simpl in *. subst r.
  rewrite get_cuda_path_cached.
  - rewrite Hc. reflexivity.
  - rewrite Hc. apply is_empty_str_false. congruence.
Qed.

Lemma get_nvcc_path_result w s :
  exists v, fst (get_nvcc_path w s) = Ok v
            /\ _nvcc_path (snd (get_nvcc_path w s)) = v.
Proof.
  unfold get_nvcc_path. run.
  destruct (is_empty_str (_nvcc_path s)).
  - destruct (environ w "NVCC") as [p|] eqn:E.
    + rewrite (_get_nvcc_path_override w s p E). simpl. eauto.
    + rewrite (_get_nvcc_path_search w s E). simpl. eauto.
  - simpl. eauto.
Qed.

Lemma get_nvcc_path_memoized w w' s :
  fst (get_nvcc_path w s) <> Ok (Some "") ->
  get_nvcc_path w' (snd (get_nvcc_path w s)) = get_nvcc_path w s.
Proof.
  intros H. destruct (get_nvcc_path_result w s) as (v & Hr & Hc).
  destruct (get_nvcc_path w s) as [r s1]. simpl in *. subst r.
  unfold get_nvcc_path. run. rewrite Hc.
  rewrite is_empty_str_false by congruence. simpl. rewrite Hc. reflexivity.
Qed.

Lemma resolveHeaderPath_spec_nonempty w tk :
  resolveHeaderPath_spec w tk <> Some "".
Proof.
  unfold resolveHeaderPath_spec, header_bundled, header_system. simpl.
  destruct (fs_isdir w _); [discriminate|].
  destruct tk as [c|]; [|discriminate].
  destruct (fs_isdir w _); discriminate.
Qed.

(** The header path is always computed once. *)
Lemma get_cub_path_memoized w w' s :
  get_cub_path w' (snd (get_cub_path w s)) = get_cub_path w s.
Proof.
  unfold get_cub_path at 2 3. run.
  destruct (is_empty_str (_cub_path s)) eqn:E.
  - destruct (_get_cub_path_run w s) as [evs H]. rewrite H. simpl.
    unfold get_cub_path. run.
    rewrite (is_empty_str_false _ (resolveHeaderPath_spec_nonempty w _)).
    reflexivity.
  - simpl. unfold get_cub_path. run. rewrite E. reflexivity.
Qed.

(** C4, at the input where it fails.  [shutil.which] answers [./nvcc], whose
    grandparent directory is the empty string, the very value that marks an
    uninitialized cache: the second call probes the file system again. *)
Theorem toolkit_path_reprobed_when_empty :
  let first := get_cuda_path Linux.nvcc_in_cwd initial_state in
  let second := get_cuda_path Linux.nvcc_in_cwd (snd first) in
  fst first = Ok (Some "")
  /\ fst second = Ok (Some "")
  /\ probes (snd first) = [EvExists ""; EvWhich "nvcc" None]
  /\ probes (snd second)
     = [EvExists ""; EvWhich "nvcc" None; EvExists ""; EvWhich "nvcc" None].
Proof.
  repeat split; reflexivity.
Qed.

(** ** PreloadConfigLoader *)

Lemma get_preload_config_cached w s :
  is_None (_preload_config s) = false ->
  get_preload_config w s = (Ok (_preload_config s), s).
Proof.
  intros H. unfold get_preload_config. run. rewrite H. reflexivity.
Qed.

Lemma get_preload_config_absent w s :
  is_None (_preload_config s) = true ->
  path_exists w (config_path w) = false ->
  get_preload_config w s = (Ok JNull, add_events [EvExists (config_path w)] s).
Proof.
  intros H Hp. unfold get_preload_config, os_path_exists. run. rewrite H.
  fold (config_path w). rewrite Hp. reflexivity.
Qed.

Lemma get_preload_config_load w s :
  is_None (_preload_config s) = true ->
  path_exists w (config_path w) = true ->
  get_preload_config w s
  = match json_load_open w (config_path w) with
    | Ok v =>
        (Ok v, set_preload_config v
                 (add_events [EvExists (config_path w); EvOpen (config_path w)] s))
    | Raise e =>
        (Raise e,
         add_events [EvExists (config_path w); EvOpen (config_path w)] s)
    end.
Proof.
  intros H Hp. unfold get_preload_config, os_path_exists, json_load. run.
  rewrite H. fold (config_path w). rewrite Hp. simpl.
  destruct (json_load_open w (config_path w)); events.
Qed.

(** C9.  While the manifest file is absent every call probes for it again
    and caches nothing; once the file is there the next call loads and
    caches it; from then on every call, in whatever world, answers from the
    cache and leaves the state, its trace included, as it was. *)
Theorem manifest_absence_not_memoized (w1 w2 w3 : World) (s : state) (v : json) :
  is_None (_preload_config s) = true ->
  path_exists w1 (config_path w1) = false ->
  path_exists w2 (config_path w2) = true ->
  json_load_open w2 (config_path w2) = Ok v ->
  is_None v = false ->
  let absent1 := get_preload_config w1 s in
  let absent2 := get_preload_config w1 (snd absent1) in
  let loaded := get_preload_config w2 (snd absent2) in
  let later := get_preload_config w3 (snd loaded) in
  fst absent1 = Ok JNull
  /\ fst absent2 = Ok JNull
  /\ snd absent2
     = add_events [EvExists (config_path w1); EvExists (config_path w1)] s
  /\ fst loaded = Ok v
  /\ _preload_config (snd loaded) = v
  /\ trace (snd loaded)
     = (trace (snd absent2)
        ++ [EvExists (config_path w2); EvOpen (config_path w2)])%list
  /\ later = (Ok v, snd loaded).
Proof.
  intros Hs H1 H2 Hv Hn. cbv zeta.
  rewrite (get_preload_config_absent w1 s Hs H1). simpl.
  rewrite (get_preload_config_absent w1 (add_events _ s) Hs H1). simpl.
  rewrite (get_preload_config_load w2 (add_events _ (add_events _ s)) Hs H2).
  rewrite Hv. simpl.
  rewrite (get_preload_config_cached w3 (set_preload_config v _) Hn). simpl.
  repeat split; events.
Qed.

Lemma manifest_absence_not_memoized_witness :
  let w1 := Linux.no_manifest in
  let w2 := Linux.nothing_loadable in
  let w3 := Linux.no_manifest in
  let absent1 := get_preload_config w1 initial_state in
  let absent2 := get_preload_config w1 (snd absent1) in
  let loaded := get_preload_config w2 (snd absent2) in
  let later := get_preload_config w3 (snd loaded) in
  (is_None (_preload_config initial_state) = true
   /\ path_exists w1 (config_path w1) = false
   /\ path_exists w2 (config_path w2) = true
   /\ json_load_open w2 (config_path w2) = Ok Linux.cudnn_manifest
   /\ is_None Linux.cudnn_manifest = false)
  /\ fst absent1 = Ok JNull
  /\ fst absent2 = Ok JNull
  /\ snd absent2
     = add_events [EvExists (config_path w1); EvExists (config_path w1)]
                  initial_state
  /\ fst loaded = Ok Linux.cudnn_manifest
  /\ _preload_config (snd loaded) = Linux.cudnn_manifest
  /\ trace (snd loaded)
     = (trace (snd absent2)
        ++ [EvExists (config_path w2); EvOpen (config_path w2)])%list
  /\ later = (Ok Linux.cudnn_manifest, snd loaded).
Proof.
  split; [repeat split; reflexivity|].
  exact (manifest_absence_not_memoized
           Linux.no_manifest Linux.nothing_loadable Linux.no_manifest
           initial_state Linux.cudnn_manifest
           eq_refl eq_refl eq_refl eq_refl eq_refl).
Defined.

Lemma loads_add_probes evs s :
  forallb is_probe evs = true -> loads (add_events evs s) = loads s.
Proof.
  intros H. unfold loads, add_events. simpl. rewrite filter_app.
  replace (filter is_load evs) with (@nil event); [apply app_nil_r|].
  induction evs as [|e evs IH]; [reflexivity|].
  simpl in H. apply andb_prop in H as [He Hevs].
  destruct e; simpl in *; try discriminate; auto.
Qed.

Lemma loads_append_log msg s : loads (append_log msg s) = loads s.
Proof. reflexivity. Qed.

Lemma known_libs_append_log msg s :
  known_libs (append_log msg s) = known_libs s.
Proof. reflexivity. Qed.

(** C2, the instance that fails: a manifest file holding an empty object
    lacks the toolkit version, yet the loader returns it and caches it. *)
Lemma manifest_loader_accepts_missing_field :
  path_exists Linux.empty_manifest (config_path Linux.empty_manifest) = true
  /\ json_load_open Linux.empty_manifest (config_path Linux.empty_manifest)
     = Ok (JObj [])
  /\ missing_field (JObj []) = Some "cuda"
  /\ fst (get_preload_config Linux.empty_manifest initial_state) = Ok (JObj [])
  /\ _preload_config (snd (get_preload_config Linux.empty_manifest initial_state))
     = JObj [].
Proof.
  repeat split; reflexivity.
Qed.

(** C2, amended.  When the manifest file exists and holds an object that
    lacks the toolkit version, or whose entry for the known library lacks
    its version or its file name, the loader returns the manifest as it is
    and caches it; [_preload_libraries] then raises [KeyError] for the first
    missing field to its caller, no library load has been attempted, and
    the manifest stays cached. *)
Theorem missing_field_raises_in_preloader
        (w : World) (s : state) (config : json) (field : string) :
  is_None (_preload_config s) = true ->
  known_libs s = ["cudnn"] ->
  path_exists w (config_path w) = true ->
  json_load_open w (config_path w) = Ok config ->
  missing_field config = Some field ->
  fst (get_preload_config w s) = Ok config
  /\ _preload_config (snd (get_preload_config w s)) = config
  /\ fst (_preload_libraries w s) = Raise (KeyError field)
  /\ loads (snd (_preload_libraries w s)) = loads s
  /\ _preload_config (snd (_preload_libraries w s)) = config.
Proof.
  intros Hs Hk Hp Hv Hm.
  pose proof (get_preload_config_load w s Hs Hp) as Hg. rewrite Hv in Hg.
  split; [rewrite Hg; reflexivity|].
  split; [rewrite Hg; reflexivity|].
  cut (exists s', _preload_libraries w s = (Raise (KeyError field), s')
                  /\ loads s' = loads s
                  /\ _preload_config s' = config).
  { intros (s' & -> & Hl & Hc). auto. }
  unfold _preload_libraries. unfold bind at 1. rewrite Hg.
  destruct config as [| | | | |items]; try discriminate.
  simpl in Hm. cbn [is_None].
  set (s1 := set_preload_config _ _).
  assert (Hl : loads s1 = loads s)
    by (subst s1; apply (loads_add_probes [_; _] s); reflexivity).
  assert (Hk1 : known_libs s1 = ["cudnn"]) by exact Hk.
  assert (Hc1 : _preload_config s1 = JObj items) by reflexivity.
  clearbody s1. run.
  destruct (dict_get items "cuda") as [c|] eqn:Ec.
  - rewrite !known_libs_append_log, Hk1. simpl.
    unfold preload_lib. run. rewrite Ec.
    destruct (dict_get items "cudnn") as [[| | | | |e]|] eqn:En;
      try discriminate.
    simpl.
    destruct (dict_get e "version") as [ver|] eqn:Ev.
    + destruct (dict_get e "filename") as [fn|] eqn:Ef; [discriminate|].
      injection Hm as <-. simpl. eauto.
    + injection Hm as <-. simpl. eauto.
  - injection Hm as <-. simpl. eauto.
Qed.

Lemma missing_field_raises_in_preloader_witness :
  let config := JObj [("cuda", JStr "11.0");
                      ("cudnn", JObj [("version", JStr "8.0.0")])] in
  (is_None (_preload_config initial_state) = true
   /\ known_libs initial_state = ["cudnn"]
   /\ path_exists Linux.no_filename (config_path Linux.no_filename) = true
   /\ json_load_open Linux.no_filename (config_path Linux.no_filename)
      = Ok config
   /\ missing_field config = Some "filename")
  /\ fst (get_preload_config Linux.no_filename initial_state) = Ok config
  /\ _preload_config (snd (get_preload_config Linux.no_filename initial_state))
     = config
  /\ fst (_preload_libraries Linux.no_filename initial_state)
     = Raise (KeyError "filename")
  /\ loads (snd (_preload_libraries Linux.no_filename initial_state))
     = loads initial_state
  /\ _preload_config (snd (_preload_libraries Linux.no_filename initial_state))
     = config.
Proof.
  split; [repeat split; reflexivity|].
  exact (missing_field_raises_in_preloader
           Linux.no_filename initial_state _ "filename"
           eq_refl eq_refl eq_refl eq_refl eq_refl).
Defined.

(** ** LibraryPreloader *)

Lemma is_lib_spec_inv entry :
  is_lib_spec entry = true ->
  exists e version filename,
    entry = JObj e
    /\ dict_get e "version" = Some (JStr version)
    /\ dict_get e "filename" = Some (JStr filename).
Proof.
  destruct entry as [| | | | |e]; try discriminate. simpl.
  destruct (dict_get e "version") as [[| | |v| |]|] eqn:Ev; try discriminate.
  destruct (dict_get e "filename") as [[| | |f| |]|] eqn:Ef; try discriminate.
  intros _. exists e, v, f. auto.
Qed.

Lemma well_formed_inv config libs :
  well_formed config libs = true ->
  exists items cuda,
    config = JObj items
    /\ dict_get items "cuda" = Some (JStr cuda)
    /\ forallb (entry_ok items) libs = true.
Proof.
  destruct config as [| | | | |items]; try discriminate. simpl.
  destruct (dict_get items "cuda") as [[| | |c| |]|] eqn:Ec; try discriminate.
  intros H. exists items, c. auto.
Qed.

Ltac logged :=
  eexists; split;
  [ simpl; repeat rewrite <- app_assoc; simpl; reflexivity
  | simpl; intros x Hx; simpl in *; tauto ].

Ltac settle :=
  first
    [ reflexivity
    | simpl; rewrite app_nil_r; reflexivity
    | simpl; repeat rewrite <- app_assoc; reflexivity
    | logged ].

Lemma dict_lookup_set {V} (d : list (string * V)) k v q :
  dict_lookup (dict_set d k v) q
  = if String.eqb k q then Some v else dict_lookup d q.
Proof.
  induction d as [|[k' v'] d IH]; simpl.
  - destruct (String.eqb k q); reflexivity.
  - destruct (String.eqb_spec k' k) as [->|Hk]; simpl.
    + destruct (String.eqb k q); reflexivity.
    + destruct (String.eqb_spec k' q) as [->|Hq].
      * destruct (String.eqb_spec k q); [congruence|reflexivity].
      * apply IH.
Qed.

Lemma record_outcome_idem o before :
  record_outcome o (record_outcome o before) = record_outcome o before.
Proof. destruct o; reflexivity. Qed.

Section Loop.

Variable w : World.
Variable items : list (string * json).
Variable cuda : string.
Hypothesis toolkit_version : dict_get items "cuda" = Some (JStr cuda).

Let config := JObj items.
Let body := preload_lib w config (get_cupy_cuda_lib_path w).

(** One turn of the loop, for a library whose manifest entry is sound: it
    ends as the call of [warnings.warn] ends, if there is one. *)
Lemma preload_lib_run lib s :
  entry_ok items lib = true ->
  exists s',
    body lib s = (warning_result w (tryPreload_spec w config lib), s')
    /\ _preload_libs s'
       = match tryPreload_spec w config lib with
         | Loaded source h => dict_set (_preload_libs s) lib (Some (source, h))
         | _ => _preload_libs s
         end
    /\ warned s' = (warned s ++ warnings_of (tryPreload_spec w config lib))%list
    /\ trace s' = (trace s ++ preload_events w config lib)%list
    /\ exists lines,
         _preload_logs s' = (_preload_logs s ++ lines)%list
         /\ incl (failure_lines lib (tryPreload_spec w config lib)) lines.
Proof.
  intros He. unfold entry_ok in He. subst body config.
  unfold preload_lib, tryPreload_spec, preload_events, os_path_exists,
    ctypes_CDLL, set_lib, _log, warnings_warn, os_path_join.
  run. rewrite toolkit_version.
  destruct (dict_get items lib) as [entry|] eqn:El; simpl.
  - destruct (is_lib_spec_inv entry He) as (e & version & filename & -> & Hv & Hf).
    simpl. rewrite Hv, Hf. simpl.
    unfold libpath_of, platform_lib_dir.
    set (libpath := path_join w _ _).
    destruct (path_exists w libpath); simpl.
    + destruct (CDLL w (JStr libpath)) as [h|err]; simpl;
        eexists; repeat split; settle.
    + destruct (CDLL w (JStr filename)) as [h|err]; simpl;
        eexists; repeat split; settle.
  - eexists; repeat split; settle.
Qed.

(** The whole loop over [libs]: it goes on until a warning is raised as an
    exception, and each library that got its turn leaves its own outcome
    behind, whatever became of the others. *)
Lemma preload_loop_run libs :
  forallb (entry_ok items) libs = true ->
  forall s,
  exists s',
    for_each libs body s = (batch_result w config libs, s')
    /\ (forall lib,
          dict_lookup (_preload_libs s') lib
          = if str_mem lib (attempted w config libs)
            then record_outcome (tryPreload_spec w config lib)
                                (dict_lookup (_preload_libs s) lib)
            else dict_lookup (_preload_libs s) lib)
    /\ warned s'
       = (warned s
          ++ flat_map (fun lib => warnings_of (tryPreload_spec w config lib))
                      (attempted w config libs))%list
    /\ trace s'
       = (trace s
          ++ flat_map (preload_events w config) (attempted w config libs))%list
    /\ exists lines,
         _preload_logs s' = (_preload_logs s ++ lines)%list
         /\ incl (flat_map
                    (fun lib => failure_lines lib (tryPreload_spec w config lib))
                    (attempted w config libs)) lines.
Proof.
  induction libs as [|x rest IH]; intros Hok s.
  - exists s. simpl. repeat split; try (rewrite app_nil_r; reflexivity).
    exists []. split; [rewrite app_nil_r; reflexivity|]. intros y [].
  - simpl in Hok. apply andb_prop in Hok as [Hx Hrest].
    destruct (preload_lib_run x s Hx)
      as (s1 & Hrun & Hlibs & Hwarn & Htrace & lines1 & Hlog1 & Hin1).
    assert (Hs1 : forall lib,
               dict_lookup (_preload_libs s1) lib
               = if String.eqb x lib
                 then record_outcome (tryPreload_spec w config x)
                                     (dict_lookup (_preload_libs s) lib)
                 else dict_lookup (_preload_libs s) lib).
    { intros lib. rewrite Hlibs.
      destruct (tryPreload_spec w config x);
        try (destruct (String.eqb x lib); reflexivity).
      rewrite dict_lookup_set. destruct (String.eqb x lib); reflexivity. }
    cbn [for_each batch_result attempted]. unfold bind, aborts. rewrite Hrun.
    destruct (warning_result w (tryPreload_spec w config x)) as [[]|err].
    + destruct (IH Hrest s1)
        as (s' & Hloop & Hlook & Hwarn' & Htrace' & lines2 & Hlog2 & Hin2).
      exists s'. split; [exact Hloop|]. split; [|split; [|split]].
      * intros lib. rewrite Hlook, Hs1. unfold str_mem.
        cbn [existsb]. fold (str_mem lib (attempted w config rest)).
        rewrite (String.eqb_sym lib x).
        destruct (String.eqb_spec x lib) as [->|Hne]; cbn [orb].
        -- rewrite record_outcome_idem.
           destruct (str_mem lib (attempted w config rest)); reflexivity.
        -- reflexivity.
      * rewrite Hwarn', Hwarn. cbn [flat_map].
        rewrite <- app_assoc. reflexivity.
      * rewrite Htrace', Htrace. cbn [flat_map].
        rewrite <- app_assoc. reflexivity.
      * exists (lines1 ++ lines2)%list. split.
        -- rewrite Hlog2, Hlog1. rewrite <- app_assoc. reflexivity.
        -- cbn [flat_map]. intros y Hy.
           apply in_app_or in Hy as [Hy|Hy]; apply in_or_app; auto.
    + exists s1. split; [reflexivity|]. split; [|split; [|split]].
      * intros lib. rewrite Hs1. unfold str_mem. cbn [existsb].
        rewrite (String.eqb_sym lib x), orb_false_r.
        destruct (String.eqb_spec x lib) as [->|Hne]; reflexivity.
      * rewrite Hwarn. cbn [flat_map]. rewrite app_nil_r. reflexivity.
      * rewrite Htrace. cbn [flat_map]. rewrite app_nil_r. reflexivity.
      * exists lines1. split; [exact Hlog1|].
        cbn [flat_map]. rewrite app_nil_r. exact Hin1.
Qed.

End Loop.

Lemma get_preload_config_frame w s :
  _preload_libs (snd (get_preload_config w s)) = _preload_libs s
  /\ warned (snd (get_preload_config w s)) = warned s
  /\ _preload_logs (snd (get_preload_config w s)) = _preload_logs s
  /\ loads (snd (get_preload_config w s)) = loads s.
Proof.
  destruct (is_None (_preload_config s)) eqn:En.
  - destruct (path_exists w (config_path w)) eqn:Ep.
    + rewrite get_preload_config_load by assumption.
      destruct (json_load_open w (config_path w)); simpl; repeat split;
        apply (loads_add_probes [_; _] s); reflexivity.
    + rewrite get_preload_config_absent by assumption. simpl.
      repeat split. apply (loads_add_probes [_] s). reflexivity.
  - rewrite get_preload_config_cached by assumption. auto.
Qed.

(** A sound manifest takes [_preload_libraries] through the known
    libraries, to the last one or to the first whose warning is raised as an
    exception. *)
Lemma _preload_libraries_run w s config :
  fst (get_preload_config w s) = Ok config ->
  well_formed config (known_libs s) = true ->
  exists s',
    _preload_libraries w s = (batch_result w config (known_libs s), s')
    /\ (forall lib,
          dict_lookup (_preload_libs s') lib
          = if str_mem lib (attempted w config (known_libs s))
            then record_outcome (tryPreload_spec w config lib)
                                (dict_lookup (_preload_libs s) lib)
            else dict_lookup (_preload_libs s) lib)
    /\ warned s'
       = (warned s
          ++ flat_map (fun lib => warnings_of (tryPreload_spec w config lib))
                      (attempted w config (known_libs s)))%list
    /\ trace s'
       = (trace (snd (get_preload_config w s))
          ++ flat_map (preload_events w config)
                      (attempted w config (known_libs s)))%list
    /\ exists lines,
         _preload_logs s' = (_preload_logs s ++ lines)%list
         /\ incl (flat_map
                    (fun lib => failure_lines lib (tryPreload_spec w config lib))
                    (attempted w config (known_libs s))) lines.
Proof.
  intros Hg Hwf.
  destruct (well_formed_inv _ _ Hwf) as (items & cuda & -> & Hc & Hok).
  pose proof (get_preload_config_frame w s) as (Fl & Fw & Fg & _).
  set (spec := tryPreload_spec w (JObj items)).
  set (events_of := preload_events w (JObj items)).
  set (tried := attempted w (JObj items)).
  set (ending := batch_result w (JObj items)).
  unfold _preload_libraries. unfold bind at 1.
  destruct (get_preload_config w s) as [r s0]. simpl in *. subst r.
  cbn [is_None]. unfold _log. run. rewrite Hc.
  set (s1 := append_log _ (append_log _ s0)).
  assert (Hk : known_libs s1 = known_libs s)
    by (unfold known_libs; simpl; rewrite Fl; reflexivity).
  fold (known_libs s1). rewrite Hk.
  destruct (preload_loop_run w items cuda Hc (known_libs s) Hok s1)
    as (s' & Hloop & Hlook & Hwarn & Htrace & lines & Hlog & Hin).
  exists s'. split; [exact Hloop|]. split; [|split; [|split]].
  - intros lib. rewrite Hlook.
    change (_preload_libs s1) with (_preload_libs s0). rewrite Fl. reflexivity.
  - rewrite Hwarn. change (warned s1) with (warned s0). rewrite Fw. reflexivity.
  - rewrite Htrace. reflexivity.
  - eexists. split.
    + rewrite Hlog. subst s1. cbn [_preload_logs append_log]. rewrite Fg.
      repeat rewrite <- app_assoc. reflexivity.
    + intros y Hy. apply in_or_app. right. apply in_or_app. right. auto.
Qed.

Lemma warnings_return_all w config libs :
  warnings_return w config libs = true ->
  batch_result w config libs = Ok tt /\ attempted w config libs = libs.
Proof.
  unfold warnings_return. induction libs as [|x rest IH]; simpl; [auto|].
  intros H. apply andb_prop in H as [Hx Hrest].
  unfold aborts in *.
  destruct (warning_result w (tryPreload_spec w config x)) as [[]|e];
    [|discriminate].
  destruct (IH Hrest) as [-> ->]. auto.
Qed.

(** C3, the instance that fails: the manifest is sound, the directory of
    the library exists, loading it raises, and warnings are errors; the
    warning is raised outside the [try] and [_preload_libraries] ends with
    it. *)
Lemma preloadAll_raises_when_warning_is_error :
  let w := Hosts.strict_broken_dir in
  fst (get_preload_config w initial_state) = Ok Linux.cudnn_manifest
  /\ well_formed Linux.cudnn_manifest (known_libs initial_state) = true
  /\ fst (_preload_libraries w initial_state)
     = Raise (Raised "UserWarning"
                     (preload_failure_message
                        Linux.cudnn_dir (Linux.not_found Linux.cudnn_dir))).
Proof.
  repeat split; reflexivity.
Qed.

(** With a second known library the batch stops at the first: the second,
    which the loader would find, is never tried. *)
Lemma warning_error_stops_the_batch :
  let after := _preload_libraries Hosts.strict_first_broken
                                  Linux.two_libs_state in
  fst after
  = Raise (Raised "UserWarning"
                  (preload_failure_message
                     Linux.cudnn_dir (Linux.not_found Linux.cudnn_dir)))
  /\ loads (snd after) = [EvCDLL (JStr Linux.cudnn_dir)]
  /\ CDLL Hosts.strict_first_broken (JStr "libnccl.so.2.7.8") = Ok 9
  /\ dict_lookup (_preload_libs (snd after)) "nccl" = Some None.
Proof.
  repeat split; reflexivity.
Qed.

(** C3, amended.  With a manifest of the required shape, and as long as no
    warning is raised as an exception, [_preload_libraries] returns
    normally, having given every known library its turn: the loads
    attempted are those of all the libraries, in order, and what the handle
    table holds for a library afterwards depends on that library's outcome
    alone, a new handle when its load succeeded and its former entry when
    its load failed or the manifest does not name it. *)
Theorem preloadAll_completes (w : World) (s : state) (config : json) :
  fst (get_preload_config w s) = Ok config ->
  well_formed config (known_libs s) = true ->
  warnings_return w config (known_libs s) = true ->
  fst (_preload_libraries w s) = Ok tt
  /\ trace (snd (_preload_libraries w s))
     = (trace (snd (get_preload_config w s))
        ++ flat_map (preload_events w config) (known_libs s))%list
  /\ forall lib,
       dict_lookup (_preload_libs (snd (_preload_libraries w s))) lib
       = if str_mem lib (known_libs s)
         then record_outcome (tryPreload_spec w config lib)
                             (dict_lookup (_preload_libs s) lib)
         else dict_lookup (_preload_libs s) lib.
Proof.
  intros Hg Hwf Hwarn.
  destruct (warnings_return_all _ _ _ Hwarn) as [Hres Hatt].
  destruct (_preload_libraries_run w s config Hg Hwf)
    as (s' & -> & Hlook & _ & Htrace & _).
  rewrite Hres, Hatt in *. simpl. auto.
Qed.

Lemma preloadAll_completes_witness :
  (fst (get_preload_config Linux.two_libs Linux.two_libs_state)
   = Ok Linux.two_libs_manifest
   /\ well_formed Linux.two_libs_manifest (known_libs Linux.two_libs_state)
      = true
   /\ warnings_return Linux.two_libs Linux.two_libs_manifest
                      (known_libs Linux.two_libs_state) = true
   /\ failed (tryPreload_spec Linux.two_libs Linux.two_libs_manifest "cudnn")
      = true
   /\ tryPreload_spec Linux.two_libs Linux.two_libs_manifest "nccl"
      = Loaded (JStr "libnccl.so.2.7.8") 9)
  /\ fst (_preload_libraries Linux.two_libs Linux.two_libs_state) = Ok tt
  /\ trace (snd (_preload_libraries Linux.two_libs Linux.two_libs_state))
     = (trace (snd (get_preload_config Linux.two_libs Linux.two_libs_state))
        ++ flat_map (preload_events Linux.two_libs Linux.two_libs_manifest)
                    (known_libs Linux.two_libs_state))%list
  /\ forall lib,
       dict_lookup
         (_preload_libs (snd (_preload_libraries Linux.two_libs
                                                 Linux.two_libs_state))) lib
       = if str_mem lib (known_libs Linux.two_libs_state)
         then record_outcome
                (tryPreload_spec Linux.two_libs Linux.two_libs_manifest lib)
                (dict_lookup (_preload_libs Linux.two_libs_state) lib)
         else dict_lookup (_preload_libs Linux.two_libs_state) lib.
Proof.
  split; [repeat split; reflexivity|].
  exact (preloadAll_completes Linux.two_libs Linux.two_libs_state
           Linux.two_libs_manifest eq_refl eq_refl eq_refl).
Defined.

(** C6, the instance that fails: the path built for the library does not
    exist and the load by name raises; the run ends normally and the log
    has its line, but no warning has been issued. *)
Lemma fallback_failure_issues_no_warning :
  let after := _preload_libraries Linux.nothing_loadable initial_state in
  tryPreload_spec Linux.nothing_loadable Linux.cudnn_manifest "cudnn"
  = FallbackFailed "libcudnn.so.8.0.0" (Linux.not_found "libcudnn.so.8.0.0")
  /\ CDLL Linux.nothing_loadable (JStr "libcudnn.so.8.0.0")
     = Raise (Linux.not_found "libcudnn.so.8.0.0")
  /\ fst after = Ok tt
  /\ loads (snd after) = [EvCDLL (JStr "libcudnn.so.8.0.0")]
  /\ dict_lookup (_preload_libs (snd after)) "cudnn" = Some None
  /\ last (_preload_logs (snd after)) "" = "Library cudnn could not be preloaded"
  /\ warned (snd after) = [].
Proof.
  repeat split; reflexivity.
Qed.

(** C6, amended.  A failed preload is reported as follows.  When the path
    built for the library exists and loading it raises, the message naming
    the path and the exception is appended to the log and handed to
    [warnings.warn]; the batch goes on when that call returns and ends with
    the warning when it is raised as an exception.  When that path does not
    exist and the load by file name raises, the line saying that the library
    could not be preloaded is appended to the log, no warning is issued and
    the batch goes on: the warnings of a run are exactly those of the first
    kind, and only they can end it. *)
Theorem preload_failure_reporting (w : World) (s : state) (config : json) :
  fst (get_preload_config w s) = Ok config ->
  well_formed config (known_libs s) = true ->
  let tried := attempted w config (known_libs s) in
  fst (_preload_libraries w s) = batch_result w config (known_libs s)
  /\ warned (snd (_preload_libraries w s))
     = (warned s
        ++ flat_map (fun lib => warnings_of (tryPreload_spec w config lib))
                    tried)%list
  /\ exists lines,
       _preload_logs (snd (_preload_libraries w s))
       = (_preload_logs s ++ lines)%list
       /\ incl (flat_map
                  (fun lib => failure_lines lib (tryPreload_spec w config lib))
                  tried) lines.
Proof.
  intros Hg Hwf tried.
  destruct (_preload_libraries_run w s config Hg Hwf)
    as (s' & -> & _ & Hwarn & _ & Hlog).
  simpl. auto.
Qed.

Lemma preload_failure_reporting_witness :
  let w := Hosts.first_broken in
  let s := Linux.two_libs_state in
  let config := Linux.two_libs_manifest in
  let tried := attempted w config (known_libs s) in
  (fst (get_preload_config w s) = Ok config
   /\ well_formed config (known_libs s) = true
   /\ tryPreload_spec w config "cudnn"
      = QualifiedFailed Linux.cudnn_dir (Linux.not_found Linux.cudnn_dir)
   /\ tried = ["cudnn"; "nccl"])
  /\ fst (_preload_libraries w s) = batch_result w config (known_libs s)
  /\ warned (snd (_preload_libraries w s))
     = (warned s
        ++ flat_map (fun lib => warnings_of (tryPreload_spec w config lib))
                    tried)%list
  /\ exists lines,
       _preload_logs (snd (_preload_libraries w s))
       = (_preload_logs s ++ lines)%list
       /\ incl (flat_map
                  (fun lib => failure_lines lib (tryPreload_spec w config lib))
                  tried) lines.
Proof.
  split; [repeat split; reflexivity|].
  exact (preload_failure_reporting Hosts.first_broken Linux.two_libs_state
           Linux.two_libs_manifest eq_refl eq_refl).
Defined.

(** What ends a batch: never a failed load by file name, and a failed load
    of an existing path only through its warning. *)
Lemma fallback_failure_never_aborts w config lib filename e :
  tryPreload_spec w config lib = FallbackFailed filename e ->
  aborts w config lib = false.
Proof. unfold aborts. intros ->. reflexivity. Qed.

Lemma qualified_failure_aborts_with_the_warning w config lib rest libpath e err :
  tryPreload_spec w config lib = QualifiedFailed libpath e ->
  warn w (preload_failure_message libpath e) = Raise err ->
  batch_result w config (lib :: rest) = Raise err
  /\ attempted w config (lib :: rest) = [lib].
Proof.
  intros Ho Hw. simpl. unfold aborts. rewrite Ho. simpl. rewrite Hw. auto.
Qed.

(** C1, at an input where it fails.  The library file lies at the path the
    specification gives and the loader can open it there; the path that
    [_preload_libraries] tests and hands to the loader stops at the
    directory, so the file is never tried, the load raises and no handle is
    recorded. *)
Theorem qualified_path_lacks_filename :
  let after := _preload_libraries Linux.installed initial_state in
  qualified_path_spec Linux.installed "11.0" "cudnn" "8.0.0" "libcudnn.so.8.0.0"
  = Linux.cudnn_file
  /\ path_exists Linux.installed Linux.cudnn_file = true
  /\ CDLL Linux.installed (JStr Linux.cudnn_file) = Ok 7
  /\ libpath_of Linux.installed "11.0" "cudnn" "8.0.0" = Linux.cudnn_dir
  /\ trace (snd after)
     = [EvExists Linux.wheel_json; EvOpen Linux.wheel_json;
        EvExists Linux.cudnn_dir; EvCDLL (JStr Linux.cudnn_dir)]
  /\ dict_lookup (_preload_libs (snd after)) "cudnn" = Some None
  /\ warned (snd after)
     = [preload_failure_message Linux.cudnn_dir (Linux.not_found Linux.cudnn_dir)].
Proof.
  repeat split; reflexivity.
Qed.

(** * Further properties of the module *)

(** ** Following a relation through a computation *)

Section Keeps.

Context {P : state -> Prop} {R : state -> state -> Prop}.
Context {inv : Invariant P R}.

Lemma keeps_ret {A} (a : A) : keeps P R (ret a).
Proof. intros s _. apply inv_refl. Qed.

Lemma keeps_gets {A} (f : state -> A) : keeps P R (gets f).
Proof. intros s _. apply inv_refl. Qed.

Lemma keeps_lift {A} (r : result A) : keeps P R (lift r).
Proof. intros s _. apply inv_refl. Qed.

Lemma keeps_modify (f : state -> state) :
  (forall s, P s -> R s (f s)) -> keeps P R (modify f).
Proof. intros H s Hs. apply H, Hs. Qed.

Lemma keeps_bind {A B} (c : M A) (k : A -> M B) :
  keeps P R c -> (forall a, keeps P R (k a)) -> keeps P R (bind c k).
Proof.
  intros Hc Hk s Hs. unfold bind. specialize (Hc s Hs).
  destruct (c s) as [[a|e] s1]; simpl in *; [|exact Hc].
  eapply inv_trans; [exact Hc|]. apply Hk. eapply inv_stable; eauto.
Qed.

Lemma keeps_bind_gets {A B} (f : state -> A) (k : A -> M B) :
  (forall s, P s -> R s (snd (k (f s) s))) -> keeps P R (bind (gets f) k).
Proof. intros H s Hs. apply H, Hs. Qed.

Lemma keeps_try {A} (body : M A) (handler : exn -> M A) :
  keeps P R body -> (forall e, keeps P R (handler e)) ->
  keeps P R (try_except body handler).
Proof.
  intros Hb Hh s Hs. unfold try_except. specialize (Hb s Hs).
  destruct (body s) as [[a|e] s1]; simpl in *; [exact Hb|].
  eapply inv_trans; [exact Hb|]. apply Hh. eapply inv_stable; eauto.
Qed.

Lemma keeps_for_each {A} (l : list A) (body : A -> M unit) :
  (forall x, In x l -> keeps P R (body x)) -> keeps P R (for_each l body).
Proof.
  induction l as [|x rest IH]; intros H; simpl.
  - apply keeps_ret.
  - apply keeps_bind.
    + apply H. left. reflexivity.
    + intros _. apply IH. intros y Hy. apply H. right. exact Hy.
Qed.

End Keeps.

Create HintDb keeps.

(** Takes a computation apart down to its changes of the state, which are
    left to the hints. *)
Ltac keeps_steps :=
  repeat first
    [ match goal with
      | |- keeps _ _ (bind (gets known_libs) _) =>
          apply keeps_bind_gets; intros ? ?
      end
    | apply keeps_ret
    | apply keeps_gets
    | apply keeps_lift
    | apply keeps_bind; [|intros ?]
    | apply keeps_try; [|intros ?]
    | apply keeps_modify; intros ? ?; solve [eauto with keeps]
    | match goal with
      | |- keeps _ _ (if ?b then _ else _) => destruct b
      | |- keeps _ _ (match ?x with _ => _ end) => destruct x
      end ].

(** ** What is never undone *)

Lemma extends_refl {A} (l : list A) : extends l l.
Proof. exists []. symmetry. apply app_nil_r. Qed.

Lemma extends_trans {A} (l1 l2 l3 : list A) :
  extends l1 l2 -> extends l2 l3 -> extends l1 l3.
Proof.
  intros [m1 ->] [m2 ->]. exists (m1 ++ m2)%list. symmetry. apply app_assoc.
Qed.

Lemma extends_snoc {A} (l : list A) x : extends l (l ++ [x]).
Proof. exists [x]. reflexivity. Qed.

Ltac grows_easy :=
  unfold grows; repeat apply conj; simpl;
  auto using extends_refl, extends_snoc.

Lemma grows_refl s : grows s s.
Proof. grows_easy. Qed.

Lemma grows_trans s1 s2 s3 : grows s1 s2 -> grows s2 s3 -> grows s1 s3.
Proof.
  intros (K1 & H1 & L1 & W1 & T1) (K2 & H2 & L2 & W2 & T2).
  unfold grows. repeat apply conj; eauto using extends_trans. congruence.
Qed.

#[global] Instance grows_invariant libs : Invariant (knows libs) grows.
Proof.
  split.
  - apply grows_refl.
  - apply grows_trans.
  - unfold knows. intros s s' Hs (K & _). rewrite K. exact Hs.
Qed.

Lemma grows_append_log msg s : grows s (append_log msg s).
Proof. grows_easy. Qed.

Lemma grows_append_warning msg s : grows s (append_warning msg s).
Proof. grows_easy. Qed.

Lemma grows_append_event e s : grows s (append_event e s).
Proof. grows_easy. Qed.

Lemma grows_set_cuda_path v s : grows s (set_cuda_path v s).
Proof. grows_easy. Qed.

Lemma grows_set_nvcc_path v s : grows s (set_nvcc_path v s).
Proof. grows_easy. Qed.

Lemma grows_set_cub_path v s : grows s (set_cub_path v s).
Proof. grows_easy. Qed.

Lemma grows_set_preload_config v s : grows s (set_preload_config v s).
Proof. grows_easy. Qed.

Lemma dict_set_keys {V} (d : list (string * V)) k v :
  In k (map fst d) -> map fst (dict_set d k v) = map fst d.
Proof.
  induction d as [|[k' v'] d IH]; simpl; [intros []|].
  intros [->|Hin].
  - rewrite String.eqb_refl. reflexivity.
  - destruct (String.eqb_spec k' k) as [->|Hne]; simpl; [reflexivity|].
    rewrite IH by assumption. reflexivity.
Qed.

Lemma grows_set_lib libs lib v s :
  knows libs s -> In lib libs ->
  grows s (set_preload_libs (dict_set (_preload_libs s) lib (Some v)) s).
Proof.
  intros Hs Hin. unfold grows. repeat apply conj; auto using extends_refl.
  - unfold known_libs. simpl. apply dict_set_keys. apply Hs, Hin.
  - intros lib'. unfold has_handle. simpl. rewrite dict_lookup_set.
    destruct (String.eqb lib lib'); auto.
Qed.

#[global] Hint Resolve grows_append_log grows_append_warning grows_append_event
  grows_set_cuda_path grows_set_nvcc_path grows_set_cub_path
  grows_set_preload_config grows_set_lib : keeps.

Ltac unfold_module :=
  unfold _preload_libraries, preload_lib, get_preload_config, set_lib,
    get_cub_path, _get_cub_path, get_nvcc_path, _get_nvcc_path,
    get_cuda_path, _get_cuda_path, _get_preload_logs, _log, warnings_warn,
    ctypes_CDLL, json_load, shutil_which, os_path_isdir, os_path_exists.

Lemma resolvers_grow w libs :
  keeps (knows libs) grows (get_cuda_path w)
  /\ keeps (knows libs) grows (get_nvcc_path w)
  /\ keeps (knows libs) grows (get_cub_path w)
  /\ keeps (knows libs) grows (_get_cuda_path w)
  /\ keeps (knows libs) grows (_get_nvcc_path w)
  /\ keeps (knows libs) grows (_get_cub_path w).
Proof.
  repeat apply conj; unfold_module; keeps_steps.
Qed.

Lemma get_preload_config_grows w libs :
  keeps (knows libs) grows (get_preload_config w).
Proof. unfold_module. keeps_steps. Qed.

Lemma preload_lib_grows w config base libs lib :
  In lib libs -> keeps (knows libs) grows (preload_lib w config base lib).
Proof. intros Hin. unfold_module. keeps_steps. Qed.

Lemma knows_nothing s : knows [] s.
Proof. intros x []. Qed.

Lemma knows_own s : knows (known_libs s) s.
Proof. apply incl_refl. Qed.

Lemma _preload_libraries_grows w libs :
  keeps (knows libs) grows (_preload_libraries w).
Proof.
  unfold _preload_libraries. pose proof (get_preload_config_grows w libs).
  unfold _log. keeps_steps.
  apply (keeps_for_each (P := knows (known_libs s))); [|apply knows_own].
  intros x Hx. apply preload_lib_grows. exact Hx.
Qed.

Lemma exec_grows w c s : grows s (exec w c s).
Proof.
  pose proof (resolvers_grow w []) as (H1 & H2 & H3 & H4 & H5 & H6).
  destruct c; simpl;
    first [ apply H1 | apply H2 | apply H3 | apply H4 | apply H5 | apply H6
          | apply (get_preload_config_grows w [])
          | apply (_preload_libraries_grows w [])
          | apply grows_append_log
          | apply grows_refl ];
    apply knows_nothing.
Qed.

Lemma run_calls_grows calls : forall s, grows s (run_calls calls s).
Proof.
  induction calls as [|[w c] rest IH]; intros s; simpl.
  - apply grows_refl.
  - eapply grows_trans; [apply exec_grows|apply IH].
Qed.

Lemma run_calls_app calls1 calls2 s :
  run_calls (calls1 ++ calls2) s = run_calls calls2 (run_calls calls1 s).
Proof.
  revert s. induction calls1 as [|[w c] rest IH]; intros s; simpl; auto.
Qed.

(** X1.  Whatever functions of the module are called, in whatever order and
    worlds, and whether they return or raise, the diagnostic log, the
    warnings issued and the trace of calls to the world are only ever added
    to at their ends. *)
Theorem histories_are_append_only (calls : list (World * call)) (s : state) :
  extends (_preload_logs s) (_preload_logs (run_calls calls s))
  /\ extends (warned s) (warned (run_calls calls s))
  /\ extends (trace s) (trace (run_calls calls s)).
Proof.
  destruct (run_calls_grows calls s) as (_ & _ & L & W & T). auto.
Qed.

(** X2.  The set of known libraries never changes: after any history of
    calls the handle table has the keys it had, in the same order. *)
Theorem known_libs_never_change (calls : list (World * call)) (s : state) :
  known_libs (run_calls calls s) = known_libs s.
Proof.
  destruct (run_calls_grows calls s) as (K & _). exact K.
Qed.

(** X3.  A handle is never released: a library that has a handle still has
    one after any history of calls, failed preloads included. *)
Theorem handles_are_never_released
        (calls : list (World * call)) (s : state) (lib : string) :
  has_handle s lib = true -> has_handle (run_calls calls s) lib = true.
Proof.
  destruct (run_calls_grows calls s) as (_ & H & _). apply H.
Qed.

Lemma handles_are_never_released_witness :
  let s := exec Hosts.by_name PreloadLibraries initial_state in
  let later := [(Linux.nothing_loadable, PreloadLibraries);
                (Linux.no_manifest, GetCubPath);
                (Linux.broken_dir, PreloadLibraries)] in
  has_handle s "cudnn" = true
  /\ has_handle (run_calls later s) "cudnn" = true.
Proof.
  split; [reflexivity|].
  apply (handles_are_never_released _ _ "cudnn"). reflexivity.
Defined.

(** ** What the preloader leaves alone, and what the resolvers leave alone *)

Ltac same_easy :=
  intros; unfold same_caches, same_preload; repeat apply conj; reflexivity.

#[global] Instance same_caches_invariant : Invariant always same_caches.
Proof.
  split.
  - same_easy.
  - intros s1 s2 s3 (A1 & B1 & C1) (A2 & B2 & C2).
    unfold same_caches. repeat apply conj; congruence.
  - intros; exact I.
Qed.

Lemma same_caches_append_log msg s : same_caches s (append_log msg s).
Proof. same_easy. Qed.

Lemma same_caches_append_warning msg s : same_caches s (append_warning msg s).
Proof. same_easy. Qed.

Lemma same_caches_append_event e s : same_caches s (append_event e s).
Proof. same_easy. Qed.

Lemma same_caches_set_preload_config v s :
  same_caches s (set_preload_config v s).
Proof. same_easy. Qed.

Lemma same_caches_set_preload_libs v s : same_caches s (set_preload_libs v s).
Proof. same_easy. Qed.

#[global] Hint Resolve same_caches_append_log same_caches_append_warning
  same_caches_append_event same_caches_set_preload_config
  same_caches_set_preload_libs : keeps.

#[global] Instance same_preload_invariant : Invariant always same_preload.
Proof.
  split.
  - same_easy.
  - intros s1 s2 s3 (A1 & B1 & C1 & D1 & E1) (A2 & B2 & C2 & D2 & E2).
    unfold same_preload. repeat apply conj; congruence.
  - intros; exact I.
Qed.

Lemma same_preload_probe e s :
  is_load e = false -> same_preload s (append_event e s).
Proof.
  intros H. unfold same_preload. repeat apply conj; try reflexivity.
  unfold loads. simpl. rewrite filter_app. simpl. rewrite H.
  apply app_nil_r.
Qed.

Lemma same_preload_exists p s : same_preload s (append_event (EvExists p) s).
Proof. apply same_preload_probe. reflexivity. Qed.

Lemma same_preload_isdir p s : same_preload s (append_event (EvIsdir p) s).
Proof. apply same_preload_probe. reflexivity. Qed.

Lemma same_preload_which c p s : same_preload s (append_event (EvWhich c p) s).
Proof. apply same_preload_probe. reflexivity. Qed.

Lemma same_preload_set_cuda_path v s : same_preload s (set_cuda_path v s).
Proof. same_easy. Qed.

Lemma same_preload_set_nvcc_path v s : same_preload s (set_nvcc_path v s).
Proof. same_easy. Qed.

Lemma same_preload_set_cub_path v s : same_preload s (set_cub_path v s).
Proof. same_easy. Qed.

#[global] Hint Resolve same_preload_exists same_preload_isdir
  same_preload_which same_preload_set_cuda_path same_preload_set_nvcc_path
  same_preload_set_cub_path : keeps.

Lemma preloader_keeps_caches w :
  keeps always same_caches (get_preload_config w)
  /\ keeps always same_caches (_preload_libraries w).
Proof.
  assert (H : keeps always same_caches (get_preload_config w))
    by (unfold_module; keeps_steps).
  split; [exact H|].
  unfold _preload_libraries, _log. keeps_steps.
  apply (keeps_for_each (P := always)); [|exact I].
  intros x _. unfold_module. keeps_steps.
Qed.

Lemma resolvers_keep_preload w :
  keeps always same_preload (get_cuda_path w)
  /\ keeps always same_preload (get_nvcc_path w)
  /\ keeps always same_preload (get_cub_path w).
Proof.
  repeat apply conj; unfold_module; keeps_steps.
Qed.

(** X4.  Loading the manifest and preloading the libraries never touch the
    three path caches, whatever the manifest holds and whether the call
    returns or raises. *)
Theorem preloader_leaves_path_caches (w : World) (s : state) :
  same_caches s (snd (get_preload_config w s))
  /\ same_caches s (snd (_preload_libraries w s)).
Proof.
  destruct (preloader_keeps_caches w) as [H1 H2].
  split; [apply H1|apply H2]; exact I.
Qed.

Lemma get_cub_path_result w s :
  exists v, fst (get_cub_path w s) = Ok v
            /\ _cub_path (snd (get_cub_path w s)) = v
            /\ v <> Some "".
Proof.
  unfold get_cub_path. run.
  destruct (is_empty_str (_cub_path s)) eqn:E.
  - destruct (_get_cub_path_run w s) as [evs H]. rewrite H. simpl.
    eexists. repeat apply conj; try reflexivity.
    apply resolveHeaderPath_spec_nonempty.
  - simpl. eexists. repeat apply conj; try reflexivity.
    intros H. rewrite H in E. discriminate.
Qed.

(** X5.  The three path resolvers never raise, and they write nothing of
    the preloader's: the cached manifest, the handle table, the log and the
    warnings are as they were, and no library load is attempted. *)
Theorem resolvers_only_resolve (w : World) (s : state) :
  (exists v, fst (get_cuda_path w s) = Ok v)
  /\ (exists v, fst (get_nvcc_path w s) = Ok v)
  /\ (exists v, fst (get_cub_path w s) = Ok v)
  /\ same_preload s (snd (get_cuda_path w s))
  /\ same_preload s (snd (get_nvcc_path w s))
  /\ same_preload s (snd (get_cub_path w s)).
Proof.
  destruct (resolvers_keep_preload w) as (H1 & H2 & H3).
  destruct (get_nvcc_path_result w s) as (v2 & Hv2 & _).
  destruct (get_cub_path_result w s) as (v3 & Hv3 & _).
  repeat apply conj; eauto; try (apply H1 || apply H2 || apply H3); try exact I.
  exists (toolkit_of w s). apply get_cuda_path_result.
Qed.

(** ** Memoization along a sequence of calls *)

Lemma call_each_cached {A} (f : World -> M A) (r : result A) (s : state) :
  (forall w, f w s = (r, s)) ->
  forall ws, call_each f ws s = (map (fun _ => r) ws, s).
Proof.
  intros H ws. induction ws as [|w rest IH]; simpl; [reflexivity|].
  rewrite H, IH. reflexivity.
Qed.

(** X6.  Once the toolkit path has been resolved to anything but the empty
    string, [None] included, every later call answers the same, in whatever
    worlds the calls are made, and leaves the state, its trace included,
    untouched. *)
Theorem toolkit_path_computed_once (w : World) (ws : list World) (s : state) :
  fst (get_cuda_path w s) <> Ok (Some "") ->
  call_each get_cuda_path ws (snd (get_cuda_path w s))
  = (map (fun _ => fst (get_cuda_path w s)) ws, snd (get_cuda_path w s)).
Proof.
  intros H. apply call_each_cached. intros w'.
  rewrite (get_cuda_path_memoized w w' s H).
  destruct (get_cuda_path w s); reflexivity.
Qed.

Lemma toolkit_path_computed_once_witness :
  fst (get_cuda_path Hosts.with_toolkit initial_state) <> Ok (Some "")
  /\ call_each get_cuda_path [Hosts.bare; Linux.nvcc_in_cwd]
               (snd (get_cuda_path Hosts.with_toolkit initial_state))
     = (map (fun _ => fst (get_cuda_path Hosts.with_toolkit initial_state))
            [Hosts.bare; Linux.nvcc_in_cwd],
        snd (get_cuda_path Hosts.with_toolkit initial_state)).
Proof.
  assert (H : fst (get_cuda_path Hosts.with_toolkit initial_state)
              <> Ok (Some "")) by discriminate.
  split; [exact H|].
  exact (toolkit_path_computed_once Hosts.with_toolkit
           [Hosts.bare; Linux.nvcc_in_cwd] initial_state H).
Defined.

(** X7.  Once the compiler path has been resolved to anything but the empty
    string, every later call answers the same and leaves the state
    untouched, even in a world where [NVCC] has been set or changed since. *)
Theorem compiler_path_computed_once (w : World) (ws : list World) (s : state) :
  fst (get_nvcc_path w s) <> Ok (Some "") ->
  call_each get_nvcc_path ws (snd (get_nvcc_path w s))
  = (map (fun _ => fst (get_nvcc_path w s)) ws, snd (get_nvcc_path w s)).
Proof.
  intros H. apply call_each_cached. intros w'.
  rewrite (get_nvcc_path_memoized w w' s H).
  destruct (get_nvcc_path w s); reflexivity.
Qed.

Lemma compiler_path_computed_once_witness :
  fst (get_nvcc_path Hosts.with_toolkit initial_state) <> Ok (Some "")
  /\ call_each get_nvcc_path [Linux.nvcc_override; Hosts.bare]
               (snd (get_nvcc_path Hosts.with_toolkit initial_state))
     = (map (fun _ => fst (get_nvcc_path Hosts.with_toolkit initial_state))
            [Linux.nvcc_override; Hosts.bare],
        snd (get_nvcc_path Hosts.with_toolkit initial_state)).
Proof.
  assert (H : fst (get_nvcc_path Hosts.with_toolkit initial_state)
              <> Ok (Some "")) by discriminate.
  split; [exact H|].
  exact (compiler_path_computed_once Hosts.with_toolkit
           [Linux.nvcc_override; Hosts.bare] initial_state H).
Defined.

(** X8.  The header path is always computed at most once: after a first
    call every later call, in whatever world, gives the same answer and
    leaves the state untouched. *)
Theorem header_path_computed_once (w : World) (ws : list World) (s : state) :
  call_each get_cub_path ws (snd (get_cub_path w s))
  = (map (fun _ => fst (get_cub_path w s)) ws, snd (get_cub_path w s)).
Proof.
  apply call_each_cached. intros w'.
  rewrite (get_cub_path_memoized w w' s).
  destruct (get_cub_path w s); reflexivity.
Qed.

(** ** The manifest at its edges *)

(** X9.  Without a manifest file nothing is preloaded: the existence of the
    file is tested, one line is logged, and the call returns; the handle
    table, the warnings and the caches are untouched and no load is
    attempted. *)
Theorem no_manifest_skips_preload (w : World) (s : state) :
  is_None (_preload_config s) = true ->
  path_exists w (config_path w) = false ->
  _preload_libraries w s
  = (Ok tt, append_log skip_line (add_events [EvExists (config_path w)] s)).
Proof.
  intros Hs Hp. unfold _preload_libraries, bind.
  rewrite (get_preload_config_absent w s Hs Hp). reflexivity.
Qed.

Lemma no_manifest_skips_preload_witness :
  (is_None (_preload_config initial_state) = true
   /\ path_exists Linux.no_manifest (config_path Linux.no_manifest) = false)
  /\ _preload_libraries Linux.no_manifest initial_state
     = (Ok tt,
        append_log skip_line
          (add_events [EvExists (config_path Linux.no_manifest)] initial_state)).
Proof.
  split; [split; reflexivity|].
  exact (no_manifest_skips_preload Linux.no_manifest initial_state
           eq_refl eq_refl).
Defined.

Lemma is_None_inv v : is_None v = true -> v = JNull.
Proof. destruct v; try discriminate. reflexivity. Qed.

Lemma set_preload_config_same s :
  is_None (_preload_config s) = true -> set_preload_config JNull s = s.
Proof.
  intros H. apply is_None_inv in H. destruct s; simpl in *. subst.
  reflexivity.
Qed.

(** X10.  A manifest file that holds [null] counts as no manifest: it is
    read, nothing stays cached, preloading is skipped with the same log
    line, and the next call opens the file again. *)
Theorem null_manifest_counts_as_absent (w : World) (s : state) :
  is_None (_preload_config s) = true ->
  path_exists w (config_path w) = true ->
  json_load_open w (config_path w) = Ok JNull ->
  let opened := [EvExists (config_path w); EvOpen (config_path w)] in
  get_preload_config w s = (Ok JNull, add_events opened s)
  /\ _preload_libraries w s
     = (Ok tt, append_log skip_line (add_events opened s))
  /\ get_preload_config w (snd (_preload_libraries w s))
     = (Ok JNull,
        append_log skip_line (add_events (opened ++ opened) s)).
Proof.
  intros Hs Hp Hv opened.
  assert (Hg : forall s0, is_None (_preload_config s0) = true ->
                          get_preload_config w s0
                          = (Ok JNull, add_events opened s0)).
  { intros s0 H0. rewrite (get_preload_config_load w s0 H0 Hp), Hv.
    rewrite (set_preload_config_same (add_events _ s0) H0). reflexivity. }
  split; [apply Hg, Hs|].
  assert (Hrun : _preload_libraries w s
                 = (Ok tt, append_log skip_line (add_events opened s))).
  { unfold _preload_libraries, bind. rewrite (Hg s Hs). reflexivity. }
  split; [exact Hrun|].
  rewrite Hrun. simpl. rewrite Hg by exact Hs.
  unfold add_events, append_log. simpl. rewrite <- app_assoc. reflexivity.
Qed.

Lemma null_manifest_counts_as_absent_witness :
  let w := Hosts.null_manifest in
  let opened := [EvExists (config_path w); EvOpen (config_path w)] in
  (is_None (_preload_config initial_state) = true
   /\ path_exists w (config_path w) = true
   /\ json_load_open w (config_path w) = Ok JNull)
  /\ get_preload_config w initial_state
     = (Ok JNull, add_events opened initial_state)
  /\ _preload_libraries w initial_state
     = (Ok tt, append_log skip_line (add_events opened initial_state))
  /\ get_preload_config w (snd (_preload_libraries w initial_state))
     = (Ok JNull,
        append_log skip_line (add_events (opened ++ opened) initial_state)).
Proof.
  split; [repeat split; reflexivity|].
  exact (null_manifest_counts_as_absent Hosts.null_manifest initial_state
           eq_refl eq_refl eq_refl).
Defined.

(** X11.  When the manifest file exists and reading it raises, the
    exception reaches the caller of [get_preload_config] and of
    [_preload_libraries] as it is; nothing is cached or logged, no load is
    attempted, and a later call reads the file again. *)
Theorem unreadable_manifest_propagates (w : World) (s : state) (e : exn) :
  is_None (_preload_config s) = true ->
  path_exists w (config_path w) = true ->
  json_load_open w (config_path w) = Raise e ->
  let opened := [EvExists (config_path w); EvOpen (config_path w)] in
  get_preload_config w s = (Raise e, add_events opened s)
  /\ _preload_libraries w s = (Raise e, add_events opened s)
  /\ get_preload_config w (snd (_preload_libraries w s))
     = (Raise e, add_events (opened ++ opened) s).
Proof.
  intros Hs Hp Hv opened.
  assert (Hg : forall s0, is_None (_preload_config s0) = true ->
                          get_preload_config w s0
                          = (Raise e, add_events opened s0)).
  { intros s0 H0. rewrite (get_preload_config_load w s0 H0 Hp), Hv.
    reflexivity. }
  assert (Hrun : _preload_libraries w s = (Raise e, add_events opened s)).
  { unfold _preload_libraries, bind. rewrite (Hg s Hs). reflexivity. }
  repeat apply conj; [apply Hg, Hs|exact Hrun|].
  rewrite Hrun. simpl. rewrite Hg by exact Hs.
  rewrite add_events_app. reflexivity.
Qed.

Lemma unreadable_manifest_propagates_witness :
  let w := Hosts.corrupt_manifest in
  let opened := [EvExists (config_path w); EvOpen (config_path w)] in
  (is_None (_preload_config initial_state) = true
   /\ path_exists w (config_path w) = true
   /\ json_load_open w (config_path w) = Raise Hosts.decode_error)
  /\ get_preload_config w initial_state
     = (Raise Hosts.decode_error, add_events opened initial_state)
  /\ _preload_libraries w initial_state
     = (Raise Hosts.decode_error, add_events opened initial_state)
  /\ get_preload_config w (snd (_preload_libraries w initial_state))
     = (Raise Hosts.decode_error,
        add_events (opened ++ opened) initial_state).
Proof.
  split; [repeat split; reflexivity|].
  exact (unreadable_manifest_propagates Hosts.corrupt_manifest initial_state
           Hosts.decode_error eq_refl eq_refl eq_refl).
Defined.

(** X12.  A manifest that is a list, a string, a number or a boolean makes
    [_preload_libraries] raise [TypeError] at its first subscript: nothing
    is logged and no load is attempted. *)
Theorem manifest_not_an_object_raises
        (w : World) (s : state) (config : json) :
  fst (get_preload_config w s) = Ok config ->
  not_an_object config = true ->
  _preload_libraries w s = (Raise TypeError, snd (get_preload_config w s)).
Proof.
  intros Hg Hn. unfold _preload_libraries, bind.
  destruct (get_preload_config w s) as [r s1]. simpl in Hg. subst r.
  destruct config; try discriminate; reflexivity.
Qed.

Lemma manifest_not_an_object_raises_witness :
  (fst (get_preload_config Hosts.list_manifest initial_state)
   = Ok (JArr [JStr "cuda"])
   /\ not_an_object (JArr [JStr "cuda"]) = true)
  /\ _preload_libraries Hosts.list_manifest initial_state
     = (Raise TypeError, snd (get_preload_config Hosts.list_manifest initial_state)).
Proof.
  split; [split; reflexivity|].
  exact (manifest_not_an_object_raises Hosts.list_manifest initial_state
           (JArr [JStr "cuda"]) eq_refl eq_refl).
Defined.

(** X13.  When the toolkit version or the version of the library is not a
    string, building the path of the library raises [TypeError]: the call
    ends there, before the file system is asked about the library and
    before any load. *)
Theorem version_not_a_string_raises
        (w : World) (s : state) (items entry : list (string * json))
        (cuda version filename : json) :
  fst (get_preload_config w s) = Ok (JObj items) ->
  known_libs s = ["cudnn"] ->
  dict_get items "cuda" = Some cuda ->
  dict_get items "cudnn" = Some (JObj entry) ->
  dict_get entry "version" = Some version ->
  dict_get entry "filename" = Some filename ->
  is_str cuda && is_str version = false ->
  fst (_preload_libraries w s) = Raise TypeError
  /\ trace (snd (_preload_libraries w s)) = trace (snd (get_preload_config w s)).
Proof.
  intros Hg Hk Hc He Hv Hf Hstr.
  pose proof (get_preload_config_frame w s) as (Fl & _).
  cut (exists s', _preload_libraries w s = (Raise TypeError, s')
                  /\ trace s' = trace (snd (get_preload_config w s))).
  { intros (s' & -> & Ht). auto. }
  unfold _preload_libraries. unfold bind at 1.
  destruct (get_preload_config w s) as [r s1]. simpl in *. subst r.
  cbn [is_None]. unfold _log. run. rewrite Hc.
  assert (Hk1 : known_libs s1 = ["cudnn"])
    by (unfold known_libs; rewrite Fl; exact Hk).
  rewrite !known_libs_append_log, Hk1. simpl.
  unfold preload_lib, os_path_join, _log. run. rewrite Hc, He. simpl.
  rewrite Hv, Hf. simpl.
  destruct cuda; try (simpl; eauto);
    destruct version; try (simpl; eauto); discriminate.
Qed.

Lemma version_not_a_string_raises_witness :
  let w := Hosts.numeric_version in
  (fst (get_preload_config w initial_state) = Ok Hosts.numeric_version_manifest
   /\ known_libs initial_state = ["cudnn"]
   /\ is_str (JStr "11.0") && is_str (JNum "8") = false)
  /\ fst (_preload_libraries w initial_state) = Raise TypeError
  /\ trace (snd (_preload_libraries w initial_state))
     = trace (snd (get_preload_config w initial_state)).
Proof.
  split; [repeat split; reflexivity|].
  exact (version_not_a_string_raises Hosts.numeric_version initial_state
           _ _ (JStr "11.0") (JNum "8") (JStr "libcudnn.so.8")
           eq_refl eq_refl eq_refl eq_refl eq_refl eq_refl eq_refl).
Defined.

Lemma unnamed_loop w items base libs :
  forallb (fun lib => negb (names items lib)) libs = true ->
  forall s,
  exists s',
    for_each libs (preload_lib w (JObj items) base) s = (Ok tt, s')
    /\ _preload_libs s' = _preload_libs s
    /\ warned s' = warned s
    /\ trace s' = trace s.
Proof.
  induction libs as [|x rest IH]; intros Hall s; simpl.
  - exists s. auto.
  - simpl in Hall. apply andb_prop in Hall as [Hx Hrest].
    unfold names in Hx.
    destruct (dict_get items x) eqn:Ex; [discriminate|].
    destruct (IH Hrest (append_log ("Not preloading " ++ x) s))
      as (s' & Hrun & Hl & Hw & Ht).
    assert (Hstep : preload_lib w (JObj items) base x s
                    = (Ok tt, append_log ("Not preloading " ++ x) s)).
    { unfold preload_lib, bind, lift, contains. rewrite Ex. reflexivity. }
    exists s'. unfold bind. rewrite Hstep, Hrun. auto.
Qed.

(** X14.  When the manifest names none of the known libraries, the run
    returns normally without asking the file system about any library and
    without a load: the handle table, the warnings and the trace are as
    reading the manifest left them. *)
Theorem unnamed_libraries_are_not_loaded
        (w : World) (s : state) (items : list (string * json)) (cuda : json) :
  fst (get_preload_config w s) = Ok (JObj items) ->
  dict_get items "cuda" = Some cuda ->
  forallb (fun lib => negb (names items lib)) (known_libs s) = true ->
  fst (_preload_libraries w s) = Ok tt
  /\ _preload_libs (snd (_preload_libraries w s)) = _preload_libs s
  /\ warned (snd (_preload_libraries w s)) = warned s
  /\ trace (snd (_preload_libraries w s)) = trace (snd (get_preload_config w s)).
Proof.
  intros Hg Hc Hall.
  pose proof (get_preload_config_frame w s) as (Fl & Fw & _).
  cut (exists s', _preload_libraries w s = (Ok tt, s')
                  /\ _preload_libs s' = _preload_libs s
                  /\ warned s' = warned s
                  /\ trace s' = trace (snd (get_preload_config w s))).
  { intros (s' & -> & H). exact (conj eq_refl H). }
  unfold _preload_libraries. unfold bind at 1.
  destruct (get_preload_config w s) as [r s1]. simpl in *. subst r.
  cbn [is_None]. unfold _log. run. rewrite Hc.
  rewrite !known_libs_append_log.
  assert (Hk1 : known_libs s1 = known_libs s)
    by (unfold known_libs; rewrite Fl; reflexivity).
  rewrite Hk1.
  match goal with
  | |- context [for_each _ _ ?st] =>
      destruct (unnamed_loop w items (get_cupy_cuda_lib_path w) _ Hall st)
        as (s' & Hrun & Hl & Hw & Ht)
  end.
  exists s'. split; [exact Hrun|].
  rewrite Hl, Hw, Ht. simpl. auto.
Qed.

Lemma unnamed_libraries_are_not_loaded_witness :
  let w := Hosts.toolkit_only in
  (fst (get_preload_config w initial_state) = Ok (JObj [("cuda", JStr "11.0")])
   /\ forallb (fun lib => negb (names [("cuda", JStr "11.0")] lib))
              (known_libs initial_state) = true)
  /\ fst (_preload_libraries w initial_state) = Ok tt
  /\ _preload_libs (snd (_preload_libraries w initial_state))
     = _preload_libs initial_state
  /\ warned (snd (_preload_libraries w initial_state)) = warned initial_state
  /\ trace (snd (_preload_libraries w initial_state))
     = trace (snd (get_preload_config w initial_state)).
Proof.
  split; [split; reflexivity|].
  exact (unnamed_libraries_are_not_loaded Hosts.toolkit_only initial_state
           [("cuda", JStr "11.0")] (JStr "11.0") eq_refl eq_refl eq_refl).
Defined.

(** ** Preloading twice *)

#[global] Instance same_config_invariant : Invariant always same_config.
Proof.
  split; unfold same_config.
  - reflexivity.
  - intros s1 s2 s3 H1 H2. congruence.
  - intros; exact I.
Qed.

Lemma same_config_append_log msg s : same_config s (append_log msg s).
Proof. reflexivity. Qed.

Lemma same_config_append_warning msg s : same_config s (append_warning msg s).
Proof. reflexivity. Qed.

Lemma same_config_append_event e s : same_config s (append_event e s).
Proof. reflexivity. Qed.

Lemma same_config_set_preload_libs v s : same_config s (set_preload_libs v s).
Proof. reflexivity. Qed.

#[global] Hint Resolve same_config_append_log same_config_append_warning
  same_config_append_event same_config_set_preload_libs : keeps.

Lemma get_preload_config_caches w s config :
  fst (get_preload_config w s) = Ok config ->
  is_None config = false ->
  _preload_config (snd (get_preload_config w s)) = config.
Proof.
  intros Hg Hn.
  destruct (is_None (_preload_config s)) eqn:En.
  - destruct (path_exists w (config_path w)) eqn:Ep.
    + rewrite get_preload_config_load in * by assumption.
      destruct (json_load_open w (config_path w)); simpl in *; congruence.
    + rewrite get_preload_config_absent in * by assumption.
      simpl in Hg. injection Hg as <-. discriminate.
  - rewrite get_preload_config_cached in * by assumption.
    simpl in *. congruence.
Qed.

Lemma _preload_libraries_keeps_config w s config :
  fst (get_preload_config w s) = Ok config ->
  is_None config = false ->
  _preload_config (snd (_preload_libraries w s)) = config.
Proof.
  intros Hg Hn. pose proof (get_preload_config_caches w s config Hg Hn) as Hc.
  unfold _preload_libraries. unfold bind at 1.
  destruct (get_preload_config w s) as [r s1]. simpl in *. subst r.
  rewrite Hn.
  assert (H : keeps always same_config
                (cuda_version <- lift (subscript config "cuda") ;;
                 _log ("CuPy wheel package built for CUDA "
                         ++ fmt w cuda_version) ;;
                 _log ("CuPy CUDA library directory: "
                         ++ get_cupy_cuda_lib_path w) ;;
                 libs <- gets known_libs ;;
                 for_each libs
                          (preload_lib w config (get_cupy_cuda_lib_path w)))).
  { unfold _log. keeps_steps.
    apply (keeps_for_each (P := always)); [|exact I].
    intros x _. unfold_module. keeps_steps. }
  transitivity (_preload_config s1); [|exact Hc].
  apply (H s1 I).
Qed.

Lemma well_formed_not_None config libs :
  well_formed config libs = true -> is_None config = false.
Proof. destruct config; try discriminate; reflexivity. Qed.

(** X15.  Preloading a second time relies on the cached manifest, so the
    manifest file is not looked for again, but every library that got its
    turn in the first run, up to the last one or to the one whose warning
    is raised as an exception, is tested and loaded anew; in the same world
    the second run ends as the first did and the handle table comes out as
    the first run left it. *)
Theorem second_preload_keeps_handles (w : World) (s : state) (config : json) :
  fst (get_preload_config w s) = Ok config ->
  well_formed config (known_libs s) = true ->
  let s1 := snd (_preload_libraries w s) in
  let s2 := snd (_preload_libraries w s1) in
  fst (_preload_libraries w s1) = fst (_preload_libraries w s)
  /\ trace s2
     = (trace s1
        ++ flat_map (preload_events w config)
                    (attempted w config (known_libs s)))%list
  /\ forall lib,
       dict_lookup (_preload_libs s2) lib = dict_lookup (_preload_libs s1) lib.
Proof.
  intros Hg Hwf s1 s2.
  pose proof (well_formed_not_None _ _ Hwf) as Hn.
  pose proof (_preload_libraries_keeps_config w s config Hg Hn) as Hc.
  fold s1 in Hc.
  destruct (_preload_libraries_grows w [] s (knows_nothing s)) as (Hk & _).
  fold s1 in Hk.
  destruct (_preload_libraries_run w s config Hg Hwf)
    as (s1' & Hrun1 & Hlook1 & _).
  assert (Es1 : s1 = s1') by (subst s1; rewrite Hrun1; reflexivity).
  rewrite <- Es1 in Hlook1.
  assert (Hg1 : get_preload_config w s1 = (Ok config, s1)).
  { rewrite get_preload_config_cached; rewrite Hc; [reflexivity|exact Hn]. }
  assert (Hg1' : fst (get_preload_config w s1) = Ok config)
    by (rewrite Hg1; reflexivity).
  assert (Hwf1 : well_formed config (known_libs s1) = true)
    by (rewrite Hk; exact Hwf).
  destruct (_preload_libraries_run w s1 config Hg1' Hwf1)
    as (s2' & Hrun2 & Hlook2 & _ & Htrace2 & _).
  subst s2. rewrite Hrun2, Hrun1. simpl.
  rewrite Hg1 in Htrace2. simpl in Htrace2. rewrite Hk in *.
  repeat apply conj; [reflexivity|exact Htrace2|].
  intros lib. rewrite Hlook2, Hlook1.
  destruct (str_mem lib (attempted w config (known_libs s))); [|reflexivity].
  apply record_outcome_idem.
Qed.

Lemma second_preload_keeps_handles_witness :
  let w := Hosts.strict_first_broken in
  let s := Linux.two_libs_state in
  let s1 := snd (_preload_libraries w s) in
  let s2 := snd (_preload_libraries w s1) in
  (fst (get_preload_config w s) = Ok Linux.two_libs_manifest
   /\ well_formed Linux.two_libs_manifest (known_libs s) = true
   /\ attempted w Linux.two_libs_manifest (known_libs s) = ["cudnn"])
  /\ fst (_preload_libraries w s1) = fst (_preload_libraries w s)
  /\ trace s2
     = (trace s1
        ++ flat_map (preload_events w Linux.two_libs_manifest)
                    (attempted w Linux.two_libs_manifest (known_libs s)))%list
  /\ forall lib,
       dict_lookup (_preload_libs s2) lib = dict_lookup (_preload_libs s1) lib.
Proof.
  split; [repeat split; reflexivity|].
  exact (second_preload_keeps_handles Hosts.strict_first_broken
           Linux.two_libs_state Linux.two_libs_manifest eq_refl eq_refl).
Defined.

(** ** The diagnostic log *)

Lemma append_assoc (a b c : string) : (a ++ b) ++ c = a ++ (b ++ c).
Proof.
  induction a as [|ch a IH]; simpl; [reflexivity|]. rewrite IH. reflexivity.
Qed.

Lemma concat_snoc sep (l : list string) (m : string) :
  String.concat sep (l ++ [m])
  = match l with
    | [] => m
    | _ :: _ => String.concat sep l ++ sep ++ m
    end.
Proof.
  induction l as [|x rest IH]; [reflexivity|].
  destruct rest as [|y rest'].
  - reflexivity.
  - change ((x :: y :: rest') ++ [m])%list
      with (x :: ((y :: rest') ++ [m]))%list.
    change (String.concat sep (x :: ((y :: rest') ++ [m]))%list)
      with (x ++ sep ++ String.concat sep ((y :: rest') ++ [m])%list).
    rewrite IH.
    change (String.concat sep (x :: y :: rest'))
      with (x ++ sep ++ String.concat sep (y :: rest')).
    rewrite !append_assoc. reflexivity.
Qed.

(** X16.  Rendering the log leaves it as it is, and a line logged shows up
    at the end of the next rendering: alone when the log was empty,
    otherwise after the former rendering and a newline. *)
Theorem rendering_after_a_log_line (msg : string) (s : state) :
  let newline := String "010" EmptyString in
  snd (_get_preload_logs s) = s
  /\ fst (_get_preload_logs (snd (_log msg s)))
     = Ok match _preload_logs s with
          | [] => msg
          | _ :: _ =>
              String.concat newline (_preload_logs s) ++ newline ++ msg
          end.
Proof.
  split; [reflexivity|].
  unfold _get_preload_logs, _log, gets, modify. simpl.
  rewrite concat_snoc. reflexivity.
Qed.

(** ** The header cache *)

#[global] Instance same_cub_invariant : Invariant always same_cub.
Proof.
  split; unfold same_cub.
  - reflexivity.
  - intros s1 s2 s3 H1 H2. congruence.
  - intros; exact I.
Qed.

Lemma same_cub_append_log msg s : same_cub s (append_log msg s).
Proof. reflexivity. Qed.

Lemma same_cub_append_warning msg s : same_cub s (append_warning msg s).
Proof. reflexivity. Qed.

Lemma same_cub_append_event e s : same_cub s (append_event e s).
Proof. reflexivity. Qed.

Lemma same_cub_set_cuda_path v s : same_cub s (set_cuda_path v s).
Proof. reflexivity. Qed.

Lemma same_cub_set_nvcc_path v s : same_cub s (set_nvcc_path v s).
Proof. reflexivity. Qed.

Lemma same_cub_set_preload_config v s : same_cub s (set_preload_config v s).
Proof. reflexivity. Qed.

Lemma same_cub_set_preload_libs v s : same_cub s (set_preload_libs v s).
Proof. reflexivity. Qed.

#[global] Hint Resolve same_cub_append_log same_cub_append_warning
  same_cub_append_event same_cub_set_cuda_path same_cub_set_nvcc_path
  same_cub_set_preload_config same_cub_set_preload_libs : keeps.

Lemma others_keep_cub w :
  keeps always same_cub (get_cuda_path w)
  /\ keeps always same_cub (get_nvcc_path w)
  /\ keeps always same_cub (_get_cuda_path w)
  /\ keeps always same_cub (_get_nvcc_path w)
  /\ keeps always same_cub (_get_cub_path w)
  /\ keeps always same_cub (get_preload_config w)
  /\ keeps always same_cub (_preload_libraries w).
Proof.
  repeat apply conj; try (unfold_module; keeps_steps; fail).
  unfold _preload_libraries, _log.
  assert (H : keeps always same_cub (get_preload_config w))
    by (unfold_module; keeps_steps).
  keeps_steps.
  apply (keeps_for_each (P := always)); [|exact I].
  intros x _. unfold_module. keeps_steps.
Qed.

Lemma resolveHeaderPath_spec_marker w tk :
  cub_marker (resolveHeaderPath_spec w tk) = true.
Proof.
  unfold resolveHeaderPath_spec, header_bundled, header_system. simpl.
  destruct (fs_isdir w _); [reflexivity|].
  destruct tk as [c|]; [|reflexivity].
  destruct (fs_isdir w _); reflexivity.
Qed.

Lemma get_cub_path_marker w s :
  cub_marker (_cub_path s) = true ->
  cub_marker (_cub_path (snd (get_cub_path w s))) = true.
Proof.
  intros H. unfold get_cub_path. run.
  destruct (is_empty_str (_cub_path s)).
  - destruct (_get_cub_path_run w s) as [evs Hr]. rewrite Hr. simpl.
    apply resolveHeaderPath_spec_marker.
  - simpl. exact H.
Qed.

Lemma exec_marker w c s :
  cub_marker (_cub_path s) = true -> cub_marker (_cub_path (exec w c s)) = true.
Proof.
  intros H.
  pose proof (others_keep_cub w) as (H1 & H2 & H3 & H4 & H5 & H6 & H7).
  destruct c; simpl;
    try (apply get_cub_path_marker; exact H);
    try exact H;
    match goal with
    | |- cub_marker (_cub_path (snd (?f ?st))) = true =>
        replace (_cub_path (snd (f st))) with (_cub_path st); [exact H|]
    end;
    symmetry;
    first [ apply (H1 s I) | apply (H2 s I) | apply (H3 s I) | apply (H4 s I)
          | apply (H5 s I) | apply (H6 s I) | apply (H7 s I) ].
Qed.

Lemma run_calls_marker calls :
  forall s, cub_marker (_cub_path s) = true ->
            cub_marker (_cub_path (run_calls calls s)) = true.
Proof.
  induction calls as [|[w c] rest IH]; intros s H; simpl; [exact H|].
  apply IH, exec_marker, H.
Qed.

Lemma marker_answer v :
  cub_marker v = true -> v <> Some "" -> is_header_answer v.
Proof.
  unfold is_header_answer. destruct v as [p|]; simpl; [|auto].
  intros H Hne.
  destruct (String.eqb_spec p ""); [subst; congruence|].
  destruct (String.eqb_spec p "<bundle>"); [subst; auto|].
  destruct (String.eqb_spec p "<CUDA>"); [subst; auto|].
  discriminate.
Qed.

(** X17.  Whatever has been called before, since the module was loaded,
    [get_cub_path] returns, and what it returns is one of the two markers
    or [None], never a path and never the empty string. *)
Theorem header_answer_is_a_marker (calls : list (World * call)) (w : World) :
  exists v,
    fst (get_cub_path w (run_calls calls initial_state)) = Ok v
    /\ is_header_answer v.
Proof.
  set (s := run_calls calls initial_state).
  assert (Hm : cub_marker (_cub_path s) = true)
    by (apply run_calls_marker; reflexivity).
  destruct (get_cub_path_result w s) as (v & Hv & Hc & Hne).
  exists v. split; [exact Hv|].
  apply marker_answer; [|exact Hne].
  rewrite <- Hc. apply get_cub_path_marker, Hm.
Qed.

(** ** Resolvers that share the toolkit path *)



(** ** The DLL search path *)

(** X19.  On Windows with Python 3.8 or later, when no toolkit path can be
    found, [_setup_win32_dll_directory] raises [RuntimeError]: no directory
    is added and nothing is logged, and the absence of the toolkit stays
    cached. *)
Theorem dll_setup_needs_a_toolkit
        (version_info : nat * nat) (add_dll_directory : string -> result unit)
        (w : World) (p : process) :
  String.prefix "win32" (sys_platform w) = true ->
  at_least_3_8 version_info = true ->
  toolkit_of w (py p) = None ->
  let after := _setup_win32_dll_directory version_info add_dll_directory w p in
  fst after = Raise runtime_error
  /\ dll_directories (snd after) = dll_directories p
  /\ _preload_logs (py (snd after)) = _preload_logs (py p)
  /\ _cuda_path (py (snd after)) = None.
Proof.
  intros Hw Hv Ht. unfold _setup_win32_dll_directory. rewrite Hw, Hv. simpl.
  pose proof (get_cuda_path_result w (py p)) as [Hr Hc].
  pose proof (resolvers_keep_preload w) as (Hk & _).
  specialize (Hk (py p) I). destruct Hk as (_ & _ & Hl & _).
  destruct (get_cuda_path w (py p)) as [r s1]. simpl in *.
  subst r. rewrite Ht in *. simpl. auto.
Qed.

Lemma dll_setup_needs_a_toolkit_witness :
  let after := _setup_win32_dll_directory (3, 8) Hosts.add_ok
                 Hosts.windows_bare Hosts.fresh in
  (String.prefix "win32" (sys_platform Hosts.windows_bare) = true
   /\ at_least_3_8 (3, 8) = true
   /\ toolkit_of Hosts.windows_bare (py Hosts.fresh) = None)
  /\ fst after = Raise runtime_error
  /\ dll_directories (snd after) = dll_directories Hosts.fresh
  /\ _preload_logs (py (snd after)) = _preload_logs (py Hosts.fresh)
  /\ _cuda_path (py (snd after)) = None.
Proof.
  split; [repeat split; reflexivity|].
  exact (dll_setup_needs_a_toolkit (3, 8) Hosts.add_ok Hosts.windows_bare
           Hosts.fresh eq_refl eq_refl eq_refl).
Defined.

(** X20.  On Windows with Python 3.8 or later and a toolkit path, the
    [bin] directory under it is logged and then handed to
    [os.add_dll_directory]: when that succeeds the directory is the one
    added, when it raises the exception reaches the caller with the log
    line already written and no directory added. *)
Theorem dll_setup_adds_toolkit_bin
        (version_info : nat * nat) (add_dll_directory : string -> result unit)
        (w : World) (p : process) (cuda_path : string) :
  String.prefix "win32" (sys_platform w) = true ->
  at_least_3_8 version_info = true ->
  toolkit_of w (py p) = Some cuda_path ->
  let bin := path_join w cuda_path ["bin"] in
  let after := _setup_win32_dll_directory version_info add_dll_directory w p in
  _preload_logs (py (snd after))
  = (_preload_logs (py p) ++ [("Adding DLL search path: " ++ bin)%string])%list
  /\ match add_dll_directory bin with
     | Ok _ =>
         fst after = Ok tt
         /\ dll_directories (snd after) = (dll_directories p ++ [bin])%list
     | Raise e =>
         fst after = Raise e
         /\ dll_directories (snd after) = dll_directories p
     end.
Proof.
  intros Hw Hv Ht bin. unfold _setup_win32_dll_directory. rewrite Hw, Hv.
  simpl.
  pose proof (get_cuda_path_result w (py p)) as [Hr _].
  pose proof (resolvers_keep_preload w) as (Hk & _).
  specialize (Hk (py p) I). destruct Hk as (_ & _ & Hl & _).
  destruct (get_cuda_path w (py p)) as [r s1]. simpl in *.
  subst r. rewrite Ht. fold bin.
  destruct (add_dll_directory bin); simpl; rewrite Hl; auto.
Qed.

Lemma dll_setup_adds_toolkit_bin_witness :
  let bin := path_join Hosts.windows "C:\CUDA\v11.0" ["bin"] in
  let after := _setup_win32_dll_directory (3, 9) Hosts.add_ok
                 Hosts.windows Hosts.fresh in
  (String.prefix "win32" (sys_platform Hosts.windows) = true
   /\ at_least_3_8 (3, 9) = true
   /\ toolkit_of Hosts.windows (py Hosts.fresh) = Some "C:\CUDA\v11.0")
  /\ _preload_logs (py (snd after))
     = (_preload_logs (py Hosts.fresh)
        ++ [("Adding DLL search path: " ++ bin)%string])%list
  /\ match Hosts.add_ok bin with
     | Ok _ =>
         fst after = Ok tt
         /\ dll_directories (snd after)
            = (dll_directories Hosts.fresh ++ [bin])%list
     | Raise e =>
         fst after = Raise e
         /\ dll_directories (snd after) = dll_directories Hosts.fresh
     end.
Proof.
  split; [repeat split; reflexivity|].
  exact (dll_setup_adds_toolkit_bin (3, 9) Hosts.add_ok Hosts.windows
           Hosts.fresh "C:\CUDA\v11.0" eq_refl eq_refl eq_refl).
Defined.
